(** * Proteinking: intake aggregation and food caching

    A shallow embedding of [api/models.py], [api/services.py] and
    [api/views.py], followed by the properties of the specification that
    concern them.

    Conventions of the embedding:
    - a Python [float] is an IEEE 754 binary64 value, Rocq's primitive
      [float]; [==], [<] and the arithmetic are the primitive operations;
    - a Python [str] is a [string]; the case and whitespace methods are
      modelled on ASCII (other characters are left unchanged);
    - a parsed JSON document is a value of [json];
    - an exception is a value [Raise e] of [result]; a function that catches
      every exception returns a plain value;
    - the database is a record of tables, each a list of rows, threaded
      through the functions that read or write it. *)

From Stdlib Require Import ZArith List String Ascii Bool Lia Floats.
From Stdlib Require Import DecimalString Sorted.
Import ListNotations.

Set Implicit Arguments.
Set Warnings "-register-all".

(** ** Exceptions *)

Inductive exception : Type :=
| AttributeError
| TypeError
| ValueError
| OverflowError
| DatabaseError
| MultipleObjectsReturned
| ValidationError.

Inductive result (A : Type) : Type :=
| Ok (a : A)
| Raise (e : exception).

Arguments Ok {A} a.
Arguments Raise {A} e.

Definition bind {A B : Type} (m : result A) (k : A -> result B) : result B :=
  match m with
  | Ok a => k a
  | Raise e => Raise e
  end.

Declare Scope py_scope.
Delimit Scope py_scope with py.
Notation "x <- m ;; k" := (bind m (fun x => k))
  (at level 61, m at next level, right associativity) : py_scope.

(** [try: ... except Exception: return None] *)
Definition except_None {A : Type} (m : result (option A)) : option A :=
  match m with
  | Ok r => r
  | Raise _ => None
  end.

(** ** Python strings *)

Module Str.

Definition is_lower (c : ascii) : bool :=
  let n := nat_of_ascii c in (97 <=? n)%nat && (n <=? 122)%nat.

Definition is_upper (c : ascii) : bool :=
  let n := nat_of_ascii c in (65 <=? n)%nat && (n <=? 90)%nat.

Definition to_upper (c : ascii) : ascii :=
  if is_lower c then ascii_of_nat (nat_of_ascii c - 32) else c.

Definition to_lower (c : ascii) : ascii :=
  if is_upper c then ascii_of_nat (nat_of_ascii c + 32) else c.

(** [str.isspace] on one ASCII character: tab, line feed, vertical tab,
    form feed, carriage return, the four separators 28..31 and space. *)
Definition is_space (c : ascii) : bool :=
  let n := nat_of_ascii c in
  ((9 <=? n)%nat && (n <=? 13)%nat)
  || ((28 <=? n)%nat && (n <=? 31)%nat)
  || (n =? 32)%nat.

Fixpoint map (f : ascii -> ascii) (s : string) : string :=
  match s with
  | EmptyString => EmptyString
  | String c s' => String (f c) (map f s')
  end.

(** [s.upper()] and [s.lower()] *)
Definition upper (s : string) : string := map to_upper s.
Definition lower (s : string) : string := map to_lower s.

(** [s.title()]: a cased character is upper-cased when it follows an
    uncased one (or starts the string) and lower-cased otherwise. *)
Fixpoint title_from (prev_cased : bool) (s : string) : string :=
  match s with
  | EmptyString => EmptyString
  | String c s' =>
      if is_lower c then
        String (if prev_cased then c else to_upper c) (title_from true s')
      else if is_upper c then
        String (if prev_cased then to_lower c else c) (title_from true s')
      else String c (title_from false s')
  end.

Definition title (s : string) : string := title_from false s.

Fixpoint lstrip (s : string) : string :=
  match s with
  | EmptyString => EmptyString
  | String c s' => if is_space c then lstrip s' else s
  end.

(** [rstrip] keeps a character when it is not a space or something
    that is kept follows it. *)
Fixpoint rstrip (s : string) : string :=
  match s with
  | EmptyString => EmptyString
  | String c s' =>
      match rstrip s' with
      | EmptyString => if is_space c then EmptyString else String c EmptyString
      | r => String c r
      end
  end.

(** [s.strip()] *)
Definition strip (s : string) : string := rstrip (lstrip s).

(** [len(s)] *)
Definition len (s : string) : Z := Z.of_nat (String.length s).

(** [s[:n]] for a non-negative literal [n] *)
Definition slice_to (n : nat) (s : string) : string := substring 0 n s.

(** [needle in hay] *)
Fixpoint contains (needle hay : string) : bool :=
  prefix needle hay
  || match hay with
     | EmptyString => false
     | String _ hay' => contains needle hay'
     end.

(** [not s] *)
Definition is_empty (s : string) : bool :=
  match s with
  | EmptyString => true
  | String _ _ => false
  end.

End Str.

(** ** JSON documents, as [response.json()] returns them *)

Inductive json : Type :=
| JNull
| JBool (b : bool)
| JInt (z : Z)
| JFloat (f : float)
| JStr (s : string)
| JList (l : list json)
| JDict (items : list (string * json)).

Module Json.

(** The binding of [key] in a dict given by its items (a key occurs
    once in a parsed object). *)
Fixpoint lookup (key : string) (items : list (string * json)) : option json :=
  match items with
  | [] => None
  | (k, v) :: rest => if String.eqb k key then Some v else lookup key rest
  end.

(** [x.get(key, default)]: only a dict has the method. *)
Definition get (x : json) (key : string) (default : json) : result json :=
  match x with
  | JDict items =>
      match lookup key items with
      | Some v => Ok v
      | None => Ok default
      end
  | _ => Raise AttributeError
  end.

(** Truth value of [x], as [x or 0] and [if x] test it. *)
Definition truthy (x : json) : bool :=
  match x with
  | JNull => false
  | JBool b => b
  | JInt z => negb (z =? 0)%Z
  | JFloat f => negb (f =? 0)%float
  | JStr s => negb (Str.is_empty s)
  | JList l => match l with [] => false | _ :: _ => true end
  | JDict d => match d with [] => false | _ :: _ => true end
  end.

Fixpoint chars (s : string) : list json :=
  match s with
  | EmptyString => []
  | String c s' => JStr (String c EmptyString) :: chars s'
  end.

(** [for item in x]: the items of a list, the keys of a dict, the
    characters of a string; nothing else is iterable. *)
Definition iter (x : json) : result (list json) :=
  match x with
  | JList l => Ok l
  | JDict d => Ok (List.map (fun kv => JStr (fst kv)) d)
  | JStr s => Ok (chars s)
  | _ => Raise TypeError
  end.

(** [float(n)] for an [int]: the nearest binary64 value, or
    [OverflowError] when [n] is too large for one. *)
Definition float_of_int (n : Z) : result float :=
  let f := SF2Prim (binary_normalize prec emax n 0 false) in
  if is_infinity f then Raise OverflowError else Ok f.

(** [str(n)] for an [int] *)
Definition str_of_int (n : Z) : string := NilZero.string_of_int (Z.to_int n).

End Json.

(** ** The models of [api/models.py] *)

Module FoodItem.
Record t : Type := {
  pk : Z;
  fdc_id : string;
  name : string;
  brand_owner : option string;
  protein_per_100g : float;
  calories_per_100g : float;
  carbs_per_100g : float;
  fat_per_100g : float;
  fiber_per_100g : float
}.
End FoodItem.

Module UserProfile.
Record t : Type := {
  user_id : Z;
  daily_protein_goal : float;
  weight : option float;
  activity_level : string
}.
End UserProfile.

Module DailyIntake.
Record t : Type := {
  pk : Z;
  user_id : Z;
  date : Z;
  total_protein : float;
  total_calories : float
}.
End DailyIntake.

(** A [FoodEntry] instance: [food_item] and [daily_intake] are the related
    objects that attribute access yields. *)
Module FoodEntry.
Record t : Type := {
  pk : option Z;
  user_id : Z;
  food_item : FoodItem.t;
  daily_intake : DailyIntake.t;
  amount_grams : float;
  protein_consumed : float;
  calories_consumed : float;
  meal_type : string
}.
End FoodEntry.

(** A row of the table behind [FoodEntry]: relations are stored by key. *)
Module FoodEntryRow.
Record t : Type := {
  id : Z;
  user_id : Z;
  food_item_id : Z;
  daily_intake_id : Z;
  amount_grams : float;
  protein_consumed : float;
  calories_consumed : float;
  meal_type : string
}.
End FoodEntryRow.

(** ** The world the code runs in *)

Inductive table : Type :=
| api_fooditem
| api_dailyintake
| api_foodentry.

(** A statement sent to the storage layer. *)
Inductive db_write : Type :=
| INSERT (t : table) (pk : Z)
| UPDATE (t : table) (pk : Z)
| DELETE (t : table) (pk : Z).

(** The GET request [search_foods] and [get_food_details] send. *)
Record request : Type := {
  url : string;
  params : list (string * string)
}.

(** Stored rows, the statements issued so far and the requests sent so
    far (newest first). [food_entries] is kept newest first, the order of
    [Meta.ordering = ['-created_at']]. *)
Record world : Type := {
  food_items : list FoodItem.t;
  user_profiles : list UserProfile.t;
  daily_intakes : list DailyIntake.t;
  food_entries : list FoodEntryRow.t;
  next_pk : Z;
  journal : list db_write;
  http_log : list request
}.

(** What [session.get] followed by [raise_for_status] and [json] can
    come to. *)
Inductive http_outcome : Type :=
| ConnectionFailed
| HttpError (status : Z)
| BodyNotJson
| Body (data : json).

(** The collaborators the source does not define: two Python builtins,
    the configured API key, the nutrition provider and the storage layer's
    verdict on a statement. *)
Class Environment : Type := {
  (** [str(x)] for a float, a list or a dict *)
  py_repr : json -> string;
  (** [float(s)] for a string, [None] when it raises [ValueError] *)
  float_of_str : string -> option float;
  (** [config('USDA_API_KEY', default='')] *)
  USDA_API_KEY : string;
  (** the provider's reply to a request *)
  session_get : request -> http_outcome;
  (** whether the storage layer carries out a statement or fails *)
  storage_accepts : world -> db_write -> bool
}.

(** An action on the world: the world it leaves and its outcome. A raised
    exception keeps what was written before it: every statement is
    committed on its own, and the source opens no transaction. *)
Definition action (A : Type) : Type := world -> world * result A.

Definition ret {A : Type} (a : A) : action A := fun w => (w, Ok a).

Definition throw {A : Type} (e : exception) : action A := fun w => (w, Raise e).

Definition abind {A B : Type} (m : action A) (k : A -> action B) : action B :=
  fun w =>
    match m w with
    | (w', Ok a) => k a w'
    | (w', Raise e) => (w', Raise e)
    end.

Declare Scope action_scope.
Delimit Scope action_scope with action.
Notation "x <-- m ;; k" := (abind m (fun x => k))
  (at level 61, m at next level, right associativity) : action_scope.

(** ** The storage layer: what Django's [Model] and querysets do *)

Definition with_food_items (rows : list FoodItem.t) (w : world) : world :=
  {| food_items := rows; user_profiles := user_profiles w;
     daily_intakes := daily_intakes w; food_entries := food_entries w;
     next_pk := next_pk w; journal := journal w; http_log := http_log w |}.

Definition with_daily_intakes (rows : list DailyIntake.t) (w : world) : world :=
  {| food_items := food_items w; user_profiles := user_profiles w;
     daily_intakes := rows; food_entries := food_entries w;
     next_pk := next_pk w; journal := journal w; http_log := http_log w |}.

Definition with_food_entries (rows : list FoodEntryRow.t) (w : world) : world :=
  {| food_items := food_items w; user_profiles := user_profiles w;
     daily_intakes := daily_intakes w; food_entries := rows;
     next_pk := next_pk w; journal := journal w; http_log := http_log w |}.

Definition with_next_pk (n : Z) (w : world) : world :=
  {| food_items := food_items w; user_profiles := user_profiles w;
     daily_intakes := daily_intakes w; food_entries := food_entries w;
     next_pk := n; journal := journal w; http_log := http_log w |}.

Definition with_journal (j : list db_write) (w : world) : world :=
  {| food_items := food_items w; user_profiles := user_profiles w;
     daily_intakes := daily_intakes w; food_entries := food_entries w;
     next_pk := next_pk w; journal := j; http_log := http_log w |}.

Definition with_http_log (l : list request) (w : world) : world :=
  {| food_items := food_items w; user_profiles := user_profiles w;
     daily_intakes := daily_intakes w; food_entries := food_entries w;
     next_pk := next_pk w; journal := journal w; http_log := l |}.

Module Orm.
Section WithEnvironment.
Context {env : Environment}.

(** One statement: carried out and journalled, or [DatabaseError] with
    the world as it was. *)
Definition execute (stmt : db_write) (effect : world -> world) : action unit :=
  fun w =>
    if storage_accepts w stmt
    then (with_journal (stmt :: journal w) (effect w), Ok tt)
    else (w, Raise DatabaseError).

(** The row an entry is stored as. *)
Definition entry_row (id : Z) (self : FoodEntry.t) : FoodEntryRow.t :=
  {| FoodEntryRow.id := id;
     FoodEntryRow.user_id := FoodEntry.user_id self;
     FoodEntryRow.food_item_id := FoodItem.pk (FoodEntry.food_item self);
     FoodEntryRow.daily_intake_id := DailyIntake.pk (FoodEntry.daily_intake self);
     FoodEntryRow.amount_grams := FoodEntry.amount_grams self;
     FoodEntryRow.protein_consumed := FoodEntry.protein_consumed self;
     FoodEntryRow.calories_consumed := FoodEntry.calories_consumed self;
     FoodEntryRow.meal_type := FoodEntry.meal_type self |}.

Definition with_pk (id : Z) (self : FoodEntry.t) : FoodEntry.t :=
  {| FoodEntry.pk := Some id;
     FoodEntry.user_id := FoodEntry.user_id self;
     FoodEntry.food_item := FoodEntry.food_item self;
     FoodEntry.daily_intake := FoodEntry.daily_intake self;
     FoodEntry.amount_grams := FoodEntry.amount_grams self;
     FoodEntry.protein_consumed := FoodEntry.protein_consumed self;
     FoodEntry.calories_consumed := FoodEntry.calories_consumed self;
     FoodEntry.meal_type := FoodEntry.meal_type self |}.

Definition replace_entry (row : FoodEntryRow.t) (rows : list FoodEntryRow.t)
  : list FoodEntryRow.t :=
  List.map (fun r => if (FoodEntryRow.id r =? FoodEntryRow.id row)%Z then row else r) rows.

(** [models.Model.save] on a [FoodEntry]: an instance without a primary
    key is inserted under a fresh one; one with a key updates its row,
    or is inserted when no row has the key. *)
Definition save_entry (self : FoodEntry.t) : action FoodEntry.t :=
  fun w =>
    match FoodEntry.pk self with
    | None =>
        let id := next_pk w in
        (_ <-- execute (INSERT api_foodentry id)
                 (fun w => with_next_pk (id + 1)
                    (with_food_entries (entry_row id self :: food_entries w) w)) ;;
         ret (with_pk id self))%action w
    | Some id =>
        if existsb (fun r => (FoodEntryRow.id r =? id)%Z) (food_entries w)
        then (_ <-- execute (UPDATE api_foodentry id)
                      (fun w => with_food_entries
                         (replace_entry (entry_row id self) (food_entries w)) w) ;;
              ret self)%action w
        else (_ <-- execute (INSERT api_foodentry id)
                      (fun w => with_food_entries
                         (entry_row id self :: food_entries w) w) ;;
              ret self)%action w
    end.

Definition replace_intake (row : DailyIntake.t) (rows : list DailyIntake.t)
  : list DailyIntake.t :=
  List.map (fun r => if (DailyIntake.pk r =? DailyIntake.pk row)%Z then row else r) rows.

(** [models.Model.save] on a [DailyIntake] that has a primary key. *)
Definition save_intake (self : DailyIntake.t) : action unit :=
  fun w =>
    let id := DailyIntake.pk self in
    if existsb (fun r => (DailyIntake.pk r =? id)%Z) (daily_intakes w)
    then execute (UPDATE api_dailyintake id)
           (fun w => with_daily_intakes (replace_intake self (daily_intakes w)) w) w
    else execute (INSERT api_dailyintake id)
           (fun w => with_daily_intakes (self :: daily_intakes w) w) w.

(** [models.Model.delete] on a [FoodEntry]; the model does not
    override it. No other table refers to an entry, so nothing cascades. *)
Definition delete_entry (self : FoodEntry.t) : action unit :=
  match FoodEntry.pk self with
  | None => throw ValueError
  | Some id =>
      execute (DELETE api_foodentry id)
        (fun w => with_food_entries
           (List.filter (fun r => negb (FoodEntryRow.id r =? id)%Z) (food_entries w)) w)
  end.

(** [daily_intake.entries.all()]: the rows of the related manager
    [entries], in the model's ordering. *)
Definition entries_all (daily_intake : DailyIntake.t) (w : world) : list FoodEntryRow.t :=
  List.filter
    (fun r => (FoodEntryRow.daily_intake_id r =? DailyIntake.pk daily_intake)%Z)
    (food_entries w).

(** [user.userprofile]: the profile row of the user, when there is one
    ([hasattr(user, 'userprofile')] is false otherwise). *)
Definition userprofile (user_id : Z) (w : world) : option UserProfile.t :=
  List.find (fun p => (UserProfile.user_id p =? user_id)%Z) (user_profiles w).

End WithEnvironment.
End Orm.

(** [sum(xs)]: the additions start from the integer [0]. *)
Definition sum (xs : list float) : float :=
  List.fold_left (fun acc x => (acc + x)%float) xs 0%float.

(** ** [api/models.py] *)

Module Models.
Section WithEnvironment.
Context {env : Environment}.

(** [MinValueValidator(limit)(value)]: raises when [value < limit]. *)
Definition MinValueValidator (limit value : float) : result unit :=
  if (value <? limit)%float then Raise ValidationError else Ok tt.

(** [MaxValueValidator(limit)(value)]: raises when [value > limit]. *)
Definition MaxValueValidator (limit value : float) : result unit :=
  if (limit <? value)%float then Raise ValidationError else Ok tt.



(** [validators] of [UserProfile.daily_protein_goal] *)
Definition daily_protein_goal_validators (value : float) : result unit :=
  (_ <- MinValueValidator 10 value ;; MaxValueValidator 500 value)%py.

(** [DailyIntake.protein_percentage]; the integer [0] of the two
    fallbacks is the float [0]. *)
Definition protein_percentage (self : DailyIntake.t) (w : world) : float :=
  match Orm.userprofile (DailyIntake.user_id self) w with
  | Some userprofile =>
      let goal := UserProfile.daily_protein_goal userprofile in
      if (0 <? goal)%float
      then (DailyIntake.total_protein self / goal * 100)%float
      else 0%float
  | None => 0%float
  end.

Definition with_consumed (protein calories : float) (self : FoodEntry.t) : FoodEntry.t :=
  {| FoodEntry.pk := FoodEntry.pk self;
     FoodEntry.user_id := FoodEntry.user_id self;
     FoodEntry.food_item := FoodEntry.food_item self;
     FoodEntry.daily_intake := FoodEntry.daily_intake self;
     FoodEntry.amount_grams := FoodEntry.amount_grams self;
     FoodEntry.protein_consumed := protein;
     FoodEntry.calories_consumed := calories;
     FoodEntry.meal_type := FoodEntry.meal_type self |}.

Definition with_daily_intake (daily_intake : DailyIntake.t) (self : FoodEntry.t)
  : FoodEntry.t :=
  {| FoodEntry.pk := FoodEntry.pk self;
     FoodEntry.user_id := FoodEntry.user_id self;
     FoodEntry.food_item := FoodEntry.food_item self;
     FoodEntry.daily_intake := daily_intake;
     FoodEntry.amount_grams := FoodEntry.amount_grams self;
     FoodEntry.protein_consumed := FoodEntry.protein_consumed self;
     FoodEntry.calories_consumed := FoodEntry.calories_consumed self;
     FoodEntry.meal_type := FoodEntry.meal_type self |}.

Definition with_totals (protein calories : float) (self : DailyIntake.t) : DailyIntake.t :=
  {| DailyIntake.pk := DailyIntake.pk self;
     DailyIntake.user_id := DailyIntake.user_id self;
     DailyIntake.date := DailyIntake.date self;
     DailyIntake.total_protein := protein;
     DailyIntake.total_calories := calories |}.

(** The totals the day's stored entries add up to. *)
Definition entries_protein (daily_intake : DailyIntake.t) (w : world) : float :=
  sum (List.map FoodEntryRow.protein_consumed (Orm.entries_all daily_intake w)).

Definition entries_calories (daily_intake : DailyIntake.t) (w : world) : float :=
  sum (List.map FoodEntryRow.calories_consumed (Orm.entries_all daily_intake w)).

(** [FoodEntry.save]. The instance is returned as the call leaves it:
    with its key, its computed amounts and the totals set on its
    [daily_intake]. *)
Definition save (self : FoodEntry.t) : action FoodEntry.t :=
  let food_item := FoodEntry.food_item self in
  let self :=
    with_consumed
      (FoodItem.protein_per_100g food_item * FoodEntry.amount_grams self / 100)%float
      (FoodItem.calories_per_100g food_item * FoodEntry.amount_grams self / 100)%float
      self in
  (self <-- Orm.save_entry self ;;
   fun w =>
     let daily_intake :=
       with_totals
         (entries_protein (FoodEntry.daily_intake self) w)
         (entries_calories (FoodEntry.daily_intake self) w)
         (FoodEntry.daily_intake self) in
     (_ <-- Orm.save_intake daily_intake ;;
      ret (with_daily_intake daily_intake self)) w)%action.

(** [FoodEntry.delete], inherited from [models.Model]. *)
Definition delete (self : FoodEntry.t) : action unit := Orm.delete_entry self.

End WithEnvironment.
End Models.

(** ** [api/services.py] *)

(** The value under ['brand_owner']: a string, or the list that slicing a
    JSON array leaves. *)
Inductive brand : Type :=
| BrandStr (s : string)
| BrandList (l : list json).

(** The dictionary [_format_food_data] builds and
    [get_or_create_food_item] reads, by its keys. *)
Module FoodData.
Record t : Type := {
  fdc_id : string;
  name : string;
  brand_owner : brand;
  protein_per_100g : float;
  calories_per_100g : float;
  carbs_per_100g : float;
  fat_per_100g : float;
  fiber_per_100g : float
}.
End FoodData.

(** The values of [nutrient_mapping]. *)
Inductive nutrient_name : Type :=
| protein
| calories
| carbs
| fat
| fiber.

Definition nutrient_name_eqb (a b : nutrient_name) : bool :=
  match a, b with
  | protein, protein | calories, calories | carbs, carbs
  | fat, fat | fiber, fiber => true
  | _, _ => false
  end.

(** The local dictionary [nutrients]. *)
Definition nutrients_dict : Type := nutrient_name -> option float.

Definition nutrients_empty : nutrients_dict := fun _ => None.

(** [nutrients[k] = v] *)
Definition nutrients_set (k : nutrient_name) (v : float) (d : nutrients_dict)
  : nutrients_dict :=
  fun k' => if nutrient_name_eqb k' k then Some v else d k'.

(** [nutrients.get(k, 0.0)] *)
Definition nutrients_get (d : nutrients_dict) (k : nutrient_name) : float :=
  match d k with
  | Some v => v
  | None => 0%float
  end.

Module FoodAPIService.
Section WithEnvironment.
Context {env : Environment}.

Open Scope string_scope.

Definition base_url : string := "https://api.nal.usda.gov/fdc/v1/".

(** [str(x)] *)
Definition py_str (x : json) : string :=
  match x with
  | JStr s => s
  | JInt z => Json.str_of_int z
  | JNull => "None"
  | JBool true => "True"
  | JBool false => "False"
  | _ => py_repr x
  end.

(** [float(x)] *)
Definition py_float (x : json) : result float :=
  match x with
  | JFloat f => Ok f
  | JInt z => Json.float_of_int z
  | JBool b => Ok (if b then 1%float else 0%float)
  | JStr s =>
      match float_of_str s with
      | Some f => Ok f
      | None => Raise ValueError
      end
  | _ => Raise TypeError
  end.

(** [x.title()] and [x.upper()]: methods of a string only. *)
Definition py_title (x : json) : result string :=
  match x with
  | JStr s => Ok (Str.title s)
  | _ => Raise AttributeError
  end.

Definition py_upper (x : json) : result string :=
  match x with
  | JStr s => Ok (Str.upper s)
  | _ => Raise AttributeError
  end.

(** [x[:200]]: a string or a list can be sliced. *)
Definition py_slice_200 (x : json) : result brand :=
  match x with
  | JStr s => Ok (BrandStr (Str.slice_to 200 s))
  | JList l => Ok (BrandList (List.firstn 200 l))
  | _ => Raise TypeError
  end.

(** [nutrient_mapping], as [nutrient_id in nutrient_mapping] and
    [nutrient_mapping[nutrient_id]] use it. *)
Definition nutrient_mapping (nutrient_id : string) : option nutrient_name :=
  if nutrient_id =? "1003" then Some protein
  else if nutrient_id =? "1008" then Some calories
  else if nutrient_id =? "1005" then Some carbs
  else if nutrient_id =? "1004" then Some fat
  else if nutrient_id =? "1079" then Some fiber
  else None.

(** [float(amount or 0)] *)
Definition float_amount_or_0 (amount : json) : result float :=
  py_float (if Json.truthy amount then amount else JInt 0).

(** The body of [for nutrient in food_nutrients]. *)
Definition read_nutrient (nutrients : nutrients_dict) (nutrient : json)
  : result nutrients_dict :=
  (inner <- Json.get nutrient "nutrient" (JDict []) ;;
   id <- Json.get inner "id" (JStr "") ;;
   let nutrient_id := py_str id in
   match nutrient_mapping nutrient_id with
   | None => Ok nutrients
   | Some nutrient_name =>
       amount <- Json.get nutrient "amount" (JInt 0) ;;
       inner <- Json.get nutrient "nutrient" (JDict []) ;;
       unit_name <- Json.get inner "unitName" (JStr "") ;;
       unit <- py_upper unit_name ;;
       if (unit =? "KCAL") && nutrient_name_eqb nutrient_name calories then
         v <- float_amount_or_0 amount ;;
         Ok (nutrients_set nutrient_name v nutrients)
       else if unit =? "G" then
         v <- float_amount_or_0 amount ;;
         Ok (nutrients_set nutrient_name v nutrients)
       else Ok nutrients
   end)%py.

Fixpoint read_nutrients (nutrients : nutrients_dict) (food_nutrients : list json)
  : result nutrients_dict :=
  match food_nutrients with
  | [] => Ok nutrients
  | nutrient :: rest =>
      (nutrients <- read_nutrient nutrients nutrient ;;
       read_nutrients nutrients rest)%py
  end.

(** [_format_food_data]; [detailed] is not read by the body. *)
Definition _format_food_data (food_data : json) (detailed : bool) : option FoodData.t :=
  except_None
    (id <- Json.get food_data "fdcId" (JStr "") ;;
     let fdc_id := py_str id in
     description <- Json.get food_data "description" (JStr "") ;;
     name <- py_title description ;;
     brand_owner <- Json.get food_data "brandOwner" (JStr "") ;;
     if Str.is_empty fdc_id || Str.is_empty name then Ok None
     else
       food_nutrients <- Json.get food_data "foodNutrients" (JList []) ;;
       items <- Json.iter food_nutrients ;;
       nutrients <- read_nutrients nutrients_empty items ;;
       brand_owner <- (if Json.truthy brand_owner
                       then py_slice_200 brand_owner
                       else Ok (BrandStr "")) ;;
       Ok (Some {| FoodData.fdc_id := fdc_id;
                   FoodData.name := Str.slice_to 200 name;
                   FoodData.brand_owner := brand_owner;
                   FoodData.protein_per_100g := nutrients_get nutrients protein;
                   FoodData.calories_per_100g := nutrients_get nutrients calories;
                   FoodData.carbs_per_100g := nutrients_get nutrients carbs;
                   FoodData.fat_per_100g := nutrients_get nutrients fat;
                   FoodData.fiber_per_100g := nutrients_get nutrients fiber |}))%py.

(** The loop of [search_foods] over [foods]. *)
Fixpoint format_foods (foods : list json) : list FoodData.t :=
  match foods with
  | [] => []
  | food :: rest =>
      match _format_food_data food false with
      | Some formatted_food => formatted_food :: format_foods rest
      | None => format_foods rest
      end
  end.

Definition api_key_params : list (string * string) :=
  if Str.is_empty USDA_API_KEY then [] else [("api_key", USDA_API_KEY)].

Definition search_request (query : string) (limit : Z) : request :=
  {| url := base_url ++ "foods/search";
     params := [("query", query);
                ("pageSize", Json.str_of_int limit);
                ("dataType", "Foundation");
                ("dataType", "SR Legacy");
                ("sortBy", "dataType.keyword");
                ("sortOrder", "asc")] ++ api_key_params |}.

(** What the [try] block of [search_foods] makes of the reply; both
    [except] clauses return the empty list. *)
Definition search_reply (reply : http_outcome) : list FoodData.t :=
  match reply with
  | Body data =>
      match (foods <- Json.get data "foods" (JList []) ;; Json.iter foods)%py with
      | Ok foods => format_foods foods
      | Raise _ => []
      end
  | _ => []
  end.

(** [search_foods] *)
Definition search_foods (query : string) (limit : Z) (w : world)
  : world * list FoodData.t :=
  if (Str.len (Str.strip query) <? 2)%Z then (w, [])
  else
    let req := search_request query limit in
    (with_http_log (req :: http_log w) w, search_reply (session_get req)).

Definition details_request (fdc_id : string) : request :=
  {| url := base_url ++ "food/" ++ fdc_id; params := api_key_params |}.

(** [get_food_details] *)
Definition get_food_details (fdc_id : string) (w : world)
  : world * option FoodData.t :=
  let req := details_request fdc_id in
  (with_http_log (req :: http_log w) w,
   match session_get req with
   | Body food_data => _format_food_data food_data true
   | _ => None
   end).

End WithEnvironment.
End FoodAPIService.

(** The keys of the dictionary, in the order [_format_food_data] inserts
    them and [food_data.items()] yields them. *)
Module Key.
Inductive t : Type :=
| fdc_id
| name
| brand_owner
| protein_per_100g
| calories_per_100g
| carbs_per_100g
| fat_per_100g
| fiber_per_100g.

Definition is_fdc_id (k : t) : bool :=
  match k with
  | fdc_id => true
  | _ => false
  end.

Definition items : list t :=
  [fdc_id; name; brand_owner; protein_per_100g; calories_per_100g;
   carbs_per_100g; fat_per_100g; fiber_per_100g].
End Key.

Module FoodCacheService.
Section WithEnvironment.
Context {env : Environment}.

(** What a [CharField] stores for a value: the string itself, [str] of
    anything else. *)
Definition brand_text (b : brand) : string :=
  match b with
  | BrandStr s => s
  | BrandList l => FoodAPIService.py_str (JList l)
  end.

(** [FoodItem(fdc_id=..., **defaults)] as it is stored under key [id]. *)
Definition new_food_item (id : Z) (food_data : FoodData.t) : FoodItem.t :=
  {| FoodItem.pk := id;
     FoodItem.fdc_id := FoodData.fdc_id food_data;
     FoodItem.name := FoodData.name food_data;
     FoodItem.brand_owner := Some (brand_text (FoodData.brand_owner food_data));
     FoodItem.protein_per_100g := FoodData.protein_per_100g food_data;
     FoodItem.calories_per_100g := FoodData.calories_per_100g food_data;
     FoodItem.carbs_per_100g := FoodData.carbs_per_100g food_data;
     FoodItem.fat_per_100g := FoodData.fat_per_100g food_data;
     FoodItem.fiber_per_100g := FoodData.fiber_per_100g food_data |}.

(** [x != y] on floats *)
Definition float_ne (x y : float) : bool := negb (x =? y)%float.

(** [getattr(food_item, field) != value] *)
Definition differs (field : Key.t) (food_item : FoodItem.t) (food_data : FoodData.t)
  : bool :=
  match field with
  | Key.fdc_id =>
      negb (FoodItem.fdc_id food_item =? FoodData.fdc_id food_data)%string
  | Key.name =>
      negb (FoodItem.name food_item =? FoodData.name food_data)%string
  | Key.brand_owner =>
      match FoodItem.brand_owner food_item, FoodData.brand_owner food_data with
      | Some s, BrandStr s' => negb (s =? s')%string
      | _, _ => true
      end
  | Key.protein_per_100g =>
      float_ne (FoodItem.protein_per_100g food_item) (FoodData.protein_per_100g food_data)
  | Key.calories_per_100g =>
      float_ne (FoodItem.calories_per_100g food_item) (FoodData.calories_per_100g food_data)
  | Key.carbs_per_100g =>
      float_ne (FoodItem.carbs_per_100g food_item) (FoodData.carbs_per_100g food_data)
  | Key.fat_per_100g =>
      float_ne (FoodItem.fat_per_100g food_item) (FoodData.fat_per_100g food_data)
  | Key.fiber_per_100g =>
      float_ne (FoodItem.fiber_per_100g food_item) (FoodData.fiber_per_100g food_data)
  end.

(** [setattr(food_item, field, value)], the value as it is stored. *)
Definition setattr (field : Key.t) (food_item : FoodItem.t) (food_data : FoodData.t)
  : FoodItem.t :=
  let i := food_item in
  let d := food_data in
  match field with
  | Key.fdc_id =>
      FoodItem.Build_t (FoodItem.pk i) (FoodData.fdc_id d) (FoodItem.name i)
        (FoodItem.brand_owner i) (FoodItem.protein_per_100g i)
        (FoodItem.calories_per_100g i) (FoodItem.carbs_per_100g i)
        (FoodItem.fat_per_100g i) (FoodItem.fiber_per_100g i)
  | Key.name =>
      FoodItem.Build_t (FoodItem.pk i) (FoodItem.fdc_id i) (FoodData.name d)
        (FoodItem.brand_owner i) (FoodItem.protein_per_100g i)
        (FoodItem.calories_per_100g i) (FoodItem.carbs_per_100g i)
        (FoodItem.fat_per_100g i) (FoodItem.fiber_per_100g i)
  | Key.brand_owner =>
      FoodItem.Build_t (FoodItem.pk i) (FoodItem.fdc_id i) (FoodItem.name i)
        (Some (brand_text (FoodData.brand_owner d))) (FoodItem.protein_per_100g i)
        (FoodItem.calories_per_100g i) (FoodItem.carbs_per_100g i)
        (FoodItem.fat_per_100g i) (FoodItem.fiber_per_100g i)
  | Key.protein_per_100g =>
      FoodItem.Build_t (FoodItem.pk i) (FoodItem.fdc_id i) (FoodItem.name i)
        (FoodItem.brand_owner i) (FoodData.protein_per_100g d)
        (FoodItem.calories_per_100g i) (FoodItem.carbs_per_100g i)
        (FoodItem.fat_per_100g i) (FoodItem.fiber_per_100g i)
  | Key.calories_per_100g =>
      FoodItem.Build_t (FoodItem.pk i) (FoodItem.fdc_id i) (FoodItem.name i)
        (FoodItem.brand_owner i) (FoodItem.protein_per_100g i)
        (FoodData.calories_per_100g d) (FoodItem.carbs_per_100g i)
        (FoodItem.fat_per_100g i) (FoodItem.fiber_per_100g i)
  | Key.carbs_per_100g =>
      FoodItem.Build_t (FoodItem.pk i) (FoodItem.fdc_id i) (FoodItem.name i)
        (FoodItem.brand_owner i) (FoodItem.protein_per_100g i)
        (FoodItem.calories_per_100g i) (FoodData.carbs_per_100g d)
        (FoodItem.fat_per_100g i) (FoodItem.fiber_per_100g i)
  | Key.fat_per_100g =>
      FoodItem.Build_t (FoodItem.pk i) (FoodItem.fdc_id i) (FoodItem.name i)
        (FoodItem.brand_owner i) (FoodItem.protein_per_100g i)
        (FoodItem.calories_per_100g i) (FoodItem.carbs_per_100g i)
        (FoodData.fat_per_100g d) (FoodItem.fiber_per_100g i)
  | Key.fiber_per_100g =>
      FoodItem.Build_t (FoodItem.pk i) (FoodItem.fdc_id i) (FoodItem.name i)
        (FoodItem.brand_owner i) (FoodItem.protein_per_100g i)
        (FoodItem.calories_per_100g i) (FoodItem.carbs_per_100g i)
        (FoodItem.fat_per_100g i) (FoodData.fiber_per_100g d)
  end.

(** One turn of [for field, value in food_data.items()], on the pair
    of [food_item] and [updated]. *)
Definition update_field (food_data : FoodData.t) (state : FoodItem.t * bool)
  (field : Key.t) : FoodItem.t * bool :=
  let (food_item, updated) := state in
  if negb (Key.is_fdc_id field) && differs field food_item food_data
  then (setattr field food_item food_data, true)
  else (food_item, updated).

Definition update_fields (food_data : FoodData.t) (food_item : FoodItem.t)
  : FoodItem.t * bool :=
  List.fold_left (update_field food_data) Key.items (food_item, false).

Definition replace_food_item (row : FoodItem.t) (rows : list FoodItem.t)
  : list FoodItem.t :=
  List.map (fun r => if (FoodItem.pk r =? FoodItem.pk row)%Z then row else r) rows.

(** [food_item.save()] on a stored item. *)
Definition save_food_item (food_item : FoodItem.t) : action unit :=
  Orm.execute (UPDATE api_fooditem (FoodItem.pk food_item))
    (fun w => with_food_items (replace_food_item food_item (food_items w)) w).

(** [FoodItem.objects.filter(fdc_id=...)] *)
Definition with_fdc_id (fdc_id : string) (w : world) : list FoodItem.t :=
  List.filter (fun r => (FoodItem.fdc_id r =? fdc_id)%string) (food_items w).

(** [get_or_create_food_item]. [get_or_create] returns the one stored
    item, creates it when there is none, and raises when several rows
    match; the [except] clause re-raises. *)
Definition get_or_create_food_item (food_data : FoodData.t)
  : action (FoodItem.t * bool) :=
  fun w =>
    match with_fdc_id (FoodData.fdc_id food_data) w with
    | [] =>
        let id := next_pk w in
        let food_item := new_food_item id food_data in
        (_ <-- Orm.execute (INSERT api_fooditem id)
                 (fun w => with_next_pk (id + 1)
                    (with_food_items (food_items w ++ [food_item]) w)) ;;
         ret (food_item, true))%action w
    | [food_item] =>
        let (food_item, updated) := update_fields food_data food_item in
        if updated
        then (_ <-- save_food_item food_item ;; ret (food_item, false))%action w
        else (w, Ok (food_item, false))
    | _ :: _ :: _ => (w, Raise MultipleObjectsReturned)
    end.

End WithEnvironment.
End FoodCacheService.

(** ** [api/views.py] *)

Module FoodSearchView.
Section WithEnvironment.
Context {env : Environment}.

(** [name__icontains=query] *)
Definition icontains (query name : string) : bool :=
  Str.contains (Str.lower query) (Str.lower name).

Fixpoint insert_by_name (row : FoodItem.t) (rows : list FoodItem.t) : list FoodItem.t :=
  match rows with
  | [] => [row]
  | r :: rest =>
      if String.leb (FoodItem.name row) (FoodItem.name r)
      then row :: rows
      else r :: insert_by_name row rest
  end.

(** [Meta.ordering = ['name']] *)
Definition order_by_name (rows : list FoodItem.t) : list FoodItem.t :=
  List.fold_right insert_by_name [] rows.

(** [FoodItem.objects.filter(name__icontains=query)] *)
Definition filter_name_icontains (query : string) (w : world) : list FoodItem.t :=
  order_by_name (List.filter (fun r => icontains query (FoodItem.name r)) (food_items w)).

(** The caching loop: an exception of [get_or_create_food_item] is
    logged and the loop goes on. *)
Fixpoint cache_foods (api_results : list FoodData.t) (w : world) : world :=
  match api_results with
  | [] => w
  | food_data :: rest =>
      cache_foods rest (fst (FoodCacheService.get_or_create_food_item food_data w))
  end.

(** [get_queryset], with the query string of the request; the
    queryset it returns is read in the world it leaves. *)
Definition get_queryset (query : string) (w : world) : world * list FoodItem.t :=
  if (Str.len query <? 2)%Z then (w, [])
  else
    let local_results := List.firstn 10 (filter_name_icontains query w) in
    let w :=
      if (Z.of_nat (List.length local_results) <? 5)%Z
      then
        let (w, api_results) := FoodAPIService.search_foods query 10 w in
        cache_foods api_results w
      else w in
    (w, List.firstn 20 (filter_name_icontains query w)).

End WithEnvironment.
End FoodSearchView.

(** ** Notions the properties are stated with *)

(** Every stored [DailyIntake] carries the sums of its stored entries. *)
Definition totals_agree (w : world) : Prop :=
  forall daily_intake,
    In daily_intake (daily_intakes w) ->
    DailyIntake.total_protein daily_intake = Models.entries_protein daily_intake w
    /\ DailyIntake.total_calories daily_intake = Models.entries_calories daily_intake w.

(** The same for the rows of one day. *)
Definition totals_agree_for (day : Z) (w : world) : Prop :=
  forall daily_intake,
    In daily_intake (daily_intakes w) ->
    DailyIntake.pk daily_intake = day ->
    DailyIntake.total_protein daily_intake = Models.entries_protein daily_intake w
    /\ DailyIntake.total_calories daily_intake = Models.entries_calories daily_intake w.

(** The storage layer carries out every statement. *)
Definition storage_sound {env : Environment} : Prop :=
  forall w stmt, storage_accepts w stmt = true.

(** The constraints of the table behind [FoodItem]: the primary key and
    [unique=True] on [fdc_id]; keys handed out later are fresh. *)
Definition catalog_ok (w : world) : Prop :=
  NoDup (List.map FoodItem.pk (food_items w))
  /\ NoDup (List.map FoodItem.fdc_id (food_items w))
  /\ (forall r, In r (food_items w) -> (FoodItem.pk r < next_pk w)%Z).

(** Two floats that are the same value or compare equal with [==]. *)
Definition same_number (x y : float) : Prop :=
  x = y \/ (x =? y)%float = true.

(** The stored item carries the fields of the dictionary. *)
Definition carries {env : Environment}
  (food_item : FoodItem.t) (food_data : FoodData.t) : Prop :=
  FoodItem.name food_item = FoodData.name food_data
  /\ FoodItem.brand_owner food_item
     = Some (FoodCacheService.brand_text (FoodData.brand_owner food_data))
  /\ same_number (FoodItem.protein_per_100g food_item) (FoodData.protein_per_100g food_data)
  /\ same_number (FoodItem.calories_per_100g food_item) (FoodData.calories_per_100g food_data)
  /\ same_number (FoodItem.carbs_per_100g food_item) (FoodData.carbs_per_100g food_data)
  /\ same_number (FoodItem.fat_per_100g food_item) (FoodData.fat_per_100g food_data)
  /\ same_number (FoodItem.fiber_per_100g food_item) (FoodData.fiber_per_100g food_data).

(** The diff check of [get_or_create_food_item] finds every field other
    than the identifier equal. *)
Definition no_difference (food_item : FoodItem.t) (food_data : FoodData.t) : Prop :=
  forall field,
    Key.is_fdc_id field = false ->
    FoodCacheService.differs field food_item food_data = false.

(** A dictionary as [_format_food_data] builds one from well-typed
    input: a string for the brand and no NaN among the nutrients. *)
Definition plain (food_data : FoodData.t) : Prop :=
  (exists s, FoodData.brand_owner food_data = BrandStr s)
  /\ is_nan (FoodData.protein_per_100g food_data) = false
  /\ is_nan (FoodData.calories_per_100g food_data) = false
  /\ is_nan (FoodData.carbs_per_100g food_data) = false
  /\ is_nan (FoodData.fat_per_100g food_data) = false
  /\ is_nan (FoodData.fiber_per_100g food_data) = false.

(** The provider is unreachable, answers with an error status, or its
    payload is malformed: not JSON, not an object, or an object whose
    ["foods"] is not a list. *)
Inductive unavailable : http_outcome -> Prop :=
| unreachable : unavailable ConnectionFailed
| error_status status : unavailable (HttpError status)
| payload_not_json : unavailable BodyNotJson
| payload_not_an_object data :
    (forall items, data <> JDict items) -> unavailable (Body data)
| foods_not_a_list items foods :
    Json.lookup "foods" items = Some foods ->
    (forall l, foods <> JList l) ->
    unavailable (Body (JDict items)).




(** The field of the dictionary that holds nutrient [n]. *)
Definition nutrient_field (n : nutrient_name) (food_data : FoodData.t) : float :=
  match n with
  | protein => FoodData.protein_per_100g food_data
  | calories => FoodData.calories_per_100g food_data
  | carbs => FoodData.carbs_per_100g food_data
  | fat => FoodData.fat_per_100g food_data
  | fiber => FoodData.fiber_per_100g food_data
  end.

(** ** Reference environments and worlds *)

(** The provider cannot be reached; the storage layer works. *)
Definition offline : Environment :=
  {| py_repr := fun _ => "<repr>"%string;
     float_of_str := fun _ => None;
     USDA_API_KEY := ""%string;
     session_get := fun _ => ConnectionFailed;
     storage_accepts := fun _ _ => true |}.

(** As [offline], with a storage layer that fails every statement on
    the table of [DailyIntake]. *)
Definition totals_write_fails : Environment :=
  {| py_repr := fun _ => "<repr>"%string;
     float_of_str := fun _ => None;
     USDA_API_KEY := ""%string;
     session_get := fun _ => ConnectionFailed;
     storage_accepts := fun _ stmt =>
       match stmt with
       | INSERT api_dailyintake _ | UPDATE api_dailyintake _
       | DELETE api_dailyintake _ => false
       | _ => true
       end |}.

Definition chicken : FoodItem.t :=
  {| FoodItem.pk := 1; FoodItem.fdc_id := "171077"; FoodItem.name := "Chicken Breast";
     FoodItem.brand_owner := Some ""%string;
     FoodItem.protein_per_100g := 20; FoodItem.calories_per_100g := 120;
     FoodItem.carbs_per_100g := 0; FoodItem.fat_per_100g := 3;
     FoodItem.fiber_per_100g := 0 |}.

Definition rice : FoodItem.t :=
  {| FoodItem.pk := 2; FoodItem.fdc_id := "169756"; FoodItem.name := "Rice, White";
     FoodItem.brand_owner := Some ""%string;
     FoodItem.protein_per_100g := 10; FoodItem.calories_per_100g := 130;
     FoodItem.carbs_per_100g := 28; FoodItem.fat_per_100g := 0;
     FoodItem.fiber_per_100g := 0 |}.

Definition today : DailyIntake.t :=
  {| DailyIntake.pk := 3; DailyIntake.user_id := 7; DailyIntake.date := 20240501;
     DailyIntake.total_protein := 0; DailyIntake.total_calories := 0 |}.

(** Two catalogued foods, one empty day for user 7, no entry yet. *)
Definition morning : world :=
  {| food_items := [chicken; rice];
     user_profiles := [{| UserProfile.user_id := 7; UserProfile.daily_protein_goal := 50;
                          UserProfile.weight := None;
                          UserProfile.activity_level := "moderate" |}];
     daily_intakes := [today];
     food_entries := [];
     next_pk := 4;
     journal := [];
     http_log := [] |}.

(** An entry as a caller hands it to [save]: no key, and amounts the
    caller made up. *)
Definition entry_of (food_item : FoodItem.t) (daily_intake : DailyIntake.t)
  (amount_grams : float) : FoodEntry.t :=
  {| FoodEntry.pk := None; FoodEntry.user_id := 7;
     FoodEntry.food_item := food_item; FoodEntry.daily_intake := daily_intake;
     FoodEntry.amount_grams := amount_grams;
     FoodEntry.protein_consumed := 999; FoodEntry.calories_consumed := 999;
     FoodEntry.meal_type := "lunch" |}.

(** The scenario of the specification: 150 g of a food with 20 g of
    protein per 100 g, then 50 g of one with 10 g, then the first entry
    removed. *)
Definition first_entry : FoodEntry.t := entry_of chicken today 150.

Definition second_entry : FoodEntry.t := entry_of rice today 50.

Definition after_first : world := fst (Models.save (env := offline) first_entry morning).

(** The first entry as [save] left it, with the key it was stored under. *)
Definition first_saved : FoodEntry.t :=
  Models.with_daily_intake (Models.with_totals 30 180 today)
    (Orm.with_pk 4 (Models.with_consumed 30 180 first_entry)).

Definition after_second : world :=
  fst (Models.save (env := offline) second_entry after_first).

Definition after_removal : world :=
  fst (Models.delete (env := offline) first_saved after_second).

(** The upsert scenario of the specification: the identifier X123 with
    10 g of protein, then with 15 g. *)
Definition x123 (protein_per_100g : float) : FoodData.t :=
  {| FoodData.fdc_id := "X123"; FoodData.name := "Oat Bar";
     FoodData.brand_owner := BrandStr "";
     FoodData.protein_per_100g := protein_per_100g;
     FoodData.calories_per_100g := 380; FoodData.carbs_per_100g := 60;
     FoodData.fat_per_100g := 9; FoodData.fiber_per_100g := 7 |}.

Definition with_x123 : world :=
  fst (FoodCacheService.get_or_create_food_item (env := offline) (x123 10) morning).

(** A raw record of the provider: energy tagged with grams, protein
    tagged with kilocalories, fat tagged with grams. *)
Definition raw_chicken : json :=
  JDict [("fdcId", JInt 171077);
         ("description", JStr "chicken, breast RAW");
         ("foodNutrients",
          JList [JDict [("nutrient", JDict [("id", JInt 1008); ("unitName", JStr "g")]);
                        ("amount", JFloat 5)];
                 JDict [("nutrient", JDict [("id", JInt 1003); ("unitName", JStr "kcal")]);
                        ("amount", JFloat 7)];
                 JDict [("nutrient", JDict [("id", JInt 1004); ("unitName", JStr "G")]);
                        ("amount", JInt 3)]])]%string.



(** An entry of [foodNutrients]: energy, tagged with grams. *)
Definition energy_in_grams : json :=
  JDict [("nutrient", JDict [("id", JInt 1008); ("unitName", JStr "g")]);
         ("amount", JFloat 5)]%string.

(** ** [api/serializers.py] *)

Module DailyIntakeSerializer.

(** [DailyIntakeSerializer.get_protein_goal] *)
Definition get_protein_goal (obj : DailyIntake.t) (w : world) : float :=
  match Orm.userprofile (DailyIntake.user_id obj) w with
  | Some userprofile => UserProfile.daily_protein_goal userprofile
  | None => 50%float
  end.

End DailyIntakeSerializer.

(** ** Further notions *)

(** The keys of the stored entries were handed out by the sequence: the
    next key is above them. *)
Definition entry_keys_fresh (w : world) : Prop :=
  forall row, In row (food_entries w) -> (FoodEntryRow.id row < next_pk w)%Z.

(** The identifier has a row in the catalogue. *)
Definition catalogued (fdc_id : string) (w : world) : Prop :=
  exists food_item, In food_item (food_items w) /\ FoodItem.fdc_id food_item = fdc_id.

(** A dictionary with an identifier and a name that fits the column. *)
Definition identified (food_data : FoodData.t) : Prop :=
  FoodData.fdc_id food_data <> ""%string
  /\ FoodData.name food_data <> ""%string
  /\ (String.length (FoodData.name food_data) <= 200)%nat.

(** The order of [Meta.ordering = ['name']]. *)
Definition by_name (a b : FoodItem.t) : Prop :=
  String.leb (FoodItem.name a) (FoodItem.name b) = true.

(** The entry as [save] writes it: with the amounts it computes. *)
Definition computed (self : FoodEntry.t) : FoodEntry.t :=
  Models.with_consumed
    (FoodItem.protein_per_100g (FoodEntry.food_item self)
     * FoodEntry.amount_grams self / 100)%float
    (FoodItem.calories_per_100g (FoodEntry.food_item self)
     * FoodEntry.amount_grams self / 100)%float
    self.

(** An entry of [foodNutrients] that the loop cannot read: reading it
    raises. *)
Definition unreadable {env : Environment} (nutrient : json) : Prop :=
  exists e, FoodAPIService.read_nutrient nutrients_empty nutrient = Raise e.

(** Energy with an accepted unit and a list where the amount should be. *)
Definition energy_with_list_amount : json :=
  JDict [("nutrient", JDict [("id", JInt 1008); ("unitName", JStr "kcal")]);
         ("amount", JList [JFloat 5])]%string.

(** Protein in grams, 37 of them, and then again with a null amount. *)
Definition protein_37 : json :=
  JDict [("nutrient", JDict [("id", JInt 1003); ("unitName", JStr "g")]);
         ("amount", JFloat 37)]%string.

Definition protein_null : json :=
  JDict [("nutrient", JDict [("id", JInt 1003); ("unitName", JStr "g")]);
         ("amount", JNull)]%string.

(** A well-formed raw record, and a provider that answers every request
    with it. *)
Definition raw_tofu : json :=
  JDict [("fdcId", JInt 172475);
         ("description", JStr "tofu, raw, firm");
         ("foodNutrients",
          JList [JDict [("nutrient", JDict [("id", JInt 1003); ("unitName", JStr "g")]);
                        ("amount", JFloat 17.5)];
                 JDict [("nutrient", JDict [("id", JInt 1008); ("unitName", JStr "kcal")]);
                        ("amount", JInt 144)]])]%string.

Definition online : Environment :=
  {| py_repr := fun _ => "<repr>"%string;
     float_of_str := fun _ => None;
     USDA_API_KEY := "DEMO_KEY"%string;
     session_get := fun _ => Body (JDict [("foods", JList [raw_tofu])]%string);
     storage_accepts := fun _ _ => true |}.

Definition tofu : FoodData.t :=
  {| FoodData.fdc_id := "172475"; FoodData.name := "Tofu, Raw, Firm";
     FoodData.brand_owner := BrandStr "";
     FoodData.protein_per_100g := 17.5; FoodData.calories_per_100g := 144;
     FoodData.carbs_per_100g := 0; FoodData.fat_per_100g := 0;
     FoodData.fiber_per_100g := 0 |}.

(** * Properties *)

(** ** Facts about the storage layer *)

Section StorageFacts.
Context {env : Environment}.

Lemma execute_accepted stmt effect w :
  storage_accepts w stmt = true ->
  Orm.execute stmt effect w = (with_journal (stmt :: journal w) (effect w), Ok tt).
Proof. intros Hacc. unfold Orm.execute. now rewrite Hacc. Qed.

(** A statement either leaves the world as it was and raises
    [DatabaseError], or applies its effect and is journalled. *)
Lemma execute_cases stmt effect w :
  Orm.execute stmt effect w = (w, Raise DatabaseError)
  \/ Orm.execute stmt effect w = (with_journal (stmt :: journal w) (effect w), Ok tt).
Proof. unfold Orm.execute. destruct (storage_accepts w stmt); auto. Qed.

Lemma In_replace_entry row rows :
  existsb (fun r => (FoodEntryRow.id r =? FoodEntryRow.id row)%Z) rows = true ->
  In row (Orm.replace_entry row rows).
Proof.
  induction rows as [|r rows IH]; simpl; [discriminate|].
  destruct (FoodEntryRow.id r =? FoodEntryRow.id row)%Z; simpl; auto.
Qed.

(** What [save_entry] leaves when it returns: the instance with a key
    and its row among the stored entries. *)
Lemma save_entry_stores self w w' saved :
  Orm.save_entry self w = (w', Ok saved) ->
  exists id,
    saved = Orm.with_pk id self
    /\ In (Orm.entry_row id self) (food_entries w')
    /\ daily_intakes w' = daily_intakes w.
Proof.
  unfold Orm.save_entry, abind, ret.
  destruct self as [pk uid fi di amount p c meal]; simpl.
  destruct pk as [id|].
  - destruct (existsb _ (food_entries w)) eqn:Hex;
      match goal with
      | |- context [Orm.execute ?s ?f w] =>
          destruct (execute_cases s f w) as [Hr|Hr]; rewrite Hr
      end;
      try discriminate; intros Heq; inversion Heq; subst; clear Heq;
      exists id; simpl; repeat split; auto.
    apply (In_replace_entry (Orm.entry_row id _)). exact Hex.
  - match goal with
    | |- context [Orm.execute ?s ?f w] =>
        destruct (execute_cases s f w) as [Hr|Hr]; rewrite Hr
    end;
    try discriminate; intros Heq; inversion Heq; subst; clear Heq.
    exists (next_pk w); simpl; repeat split; auto.
Qed.

Lemma save_intake_keeps_entries self w w' r :
  Orm.save_intake self w = (w', r) -> food_entries w' = food_entries w.
Proof.
  unfold Orm.save_intake.
  destruct (existsb _ (daily_intakes w));
    match goal with
    | |- context [Orm.execute ?s ?f w] =>
        destruct (execute_cases s f w) as [Hr|Hr]; rewrite Hr
    end;
    intros Heq; inversion Heq; subst; reflexivity.
Qed.

Lemma save_intake_refused self w w' e :
  Orm.save_intake self w = (w', Raise e) -> w' = w /\ e = DatabaseError.
Proof.
  unfold Orm.save_intake.
  destruct (existsb _ (daily_intakes w));
    match goal with
    | |- context [Orm.execute ?s ?f w] =>
        destruct (execute_cases s f w) as [Hr|Hr]; rewrite Hr
    end;
    intros Heq; inversion Heq; subst; auto.
Qed.

Lemma save_entry_refused self w w' e :
  Orm.save_entry self w = (w', Raise e) -> w' = w /\ e = DatabaseError.
Proof.
  unfold Orm.save_entry, abind, ret.
  destruct (FoodEntry.pk self) as [id|]; [destruct (existsb _ (food_entries w))|];
    match goal with
    | |- context [Orm.execute ?s ?f w] =>
        destruct (execute_cases s f w) as [Hr|Hr]; rewrite Hr
    end;
    intros Heq; inversion Heq; subst; auto.
Qed.

(** [save] is its two writes in a row. *)
Lemma save_unfold self w :
  Models.save self w =
  let computed :=
    Models.with_consumed
      (FoodItem.protein_per_100g (FoodEntry.food_item self)
       * FoodEntry.amount_grams self / 100)%float
      (FoodItem.calories_per_100g (FoodEntry.food_item self)
       * FoodEntry.amount_grams self / 100)%float
      self in
  match Orm.save_entry computed w with
  | (w1, Ok saved) =>
      let daily_intake :=
        Models.with_totals
          (Models.entries_protein (FoodEntry.daily_intake saved) w1)
          (Models.entries_calories (FoodEntry.daily_intake saved) w1)
          (FoodEntry.daily_intake saved) in
      match Orm.save_intake daily_intake w1 with
      | (w2, Ok _) => (w2, Ok (Models.with_daily_intake daily_intake saved))
      | (w2, Raise e) => (w2, Raise e)
      end
  | (w1, Raise e) => (w1, Raise e)
  end.
Proof.
  unfold Models.save, abind, ret. simpl.
  destruct (Orm.save_entry _ w) as [w1 [saved|e]]; [|reflexivity].
  destruct (Orm.save_intake _ w1) as [w2 [[]|e]]; reflexivity.
Qed.

End StorageFacts.

(** ** Computed amounts of an entry *)

(** C4. Every entry that [save] writes carries
    [protein_per_100g * amount_grams / 100] and
    [calories_per_100g * amount_grams / 100], computed from the food item
    attached to the instance when it is written: on the instance and in
    the stored row when [save] returns, and in the stored row when the
    entry was written and the write of the totals failed. What the caller
    put in the two fields is never read. *)
Theorem save_computes_consumed {env : Environment} (self : FoodEntry.t) (w : world) :
  let protein :=
    (FoodItem.protein_per_100g (FoodEntry.food_item self)
     * FoodEntry.amount_grams self / 100)%float in
  let calories :=
    (FoodItem.calories_per_100g (FoodEntry.food_item self)
     * FoodEntry.amount_grams self / 100)%float in
  let written w' id :=
    exists row,
      In row (food_entries w')
      /\ FoodEntryRow.id row = id
      /\ FoodEntryRow.food_item_id row = FoodItem.pk (FoodEntry.food_item self)
      /\ FoodEntryRow.amount_grams row = FoodEntry.amount_grams self
      /\ FoodEntryRow.protein_consumed row = protein
      /\ FoodEntryRow.calories_consumed row = calories in
  match Models.save self w with
  | (w', Ok saved) =>
      FoodEntry.protein_consumed saved = protein
      /\ FoodEntry.calories_consumed saved = calories
      /\ exists id, FoodEntry.pk saved = Some id /\ written w' id
  | (w', Raise e) => w' = w \/ exists id, written w' id
  end
  /\ (forall supplied_protein supplied_calories,
        Models.save (Models.with_consumed supplied_protein supplied_calories self) w
        = Models.save self w).
Proof.
  intros protein calories written.
  split; [|intros p c; reflexivity].
  rewrite save_unfold. cbv zeta. fold protein calories.
  destruct (Orm.save_entry _ w) as [w1 [stored|e]] eqn:Hentry.
  - apply save_entry_stores in Hentry as (id & -> & Hin & _).
    assert (Hwritten : forall w2,
               food_entries w2 = food_entries w1 -> written w2 id).
    { intros w2 Hrows.
      exists (Orm.entry_row id (Models.with_consumed protein calories self)).
      rewrite Hrows. split; [exact Hin|]. simpl. auto. }
    destruct (Orm.save_intake _ w1) as [w2 [[]|e]] eqn:Hintake;
      apply save_intake_keeps_entries in Hintake.
    + split; [reflexivity|]. split; [reflexivity|]. exists id. auto.
    + right. exists id. auto.
  - apply save_entry_refused in Hentry as [-> _]. now left.
Qed.

(** The first addition of the scenario, run: 150 g of a food with 20 g
    of protein and 120 kcal per 100 g are stored as 30 g and 180 kcal,
    whatever the caller supplied. *)
Example save_scenario :
  Models.save (env := offline) first_entry morning = (after_first, Ok first_saved)
  /\ FoodEntry.protein_consumed first_entry = 999%float
  /\ FoodEntry.protein_consumed first_saved = 30%float
  /\ FoodEntry.calories_consumed first_saved = 180%float
  /\ List.map FoodEntryRow.protein_consumed (food_entries after_first) = [30]%float.
Proof. vm_compute. repeat split. Qed.

(** ** Daily totals *)

Section TotalsFacts.
Context {env : Environment}.

(** The sums of a day depend on its key and on the stored entries
    only. *)
Lemma entries_all_same_day d d' w w' :
  DailyIntake.pk d = DailyIntake.pk d' ->
  food_entries w = food_entries w' ->
  Orm.entries_all d w = Orm.entries_all d' w'.
Proof. unfold Orm.entries_all. intros -> ->. reflexivity. Qed.

Lemma entries_sums_same_day d d' w w' :
  DailyIntake.pk d = DailyIntake.pk d' ->
  food_entries w = food_entries w' ->
  Models.entries_protein d w = Models.entries_protein d' w'
  /\ Models.entries_calories d w = Models.entries_calories d' w'.
Proof.
  intros Hpk Hrows. unfold Models.entries_protein, Models.entries_calories.
  now rewrite (entries_all_same_day d d' w w' Hpk Hrows).
Qed.

Lemma In_replace_intake row rows d :
  In d (Orm.replace_intake row rows) ->
  d = row \/ (In d rows /\ DailyIntake.pk d <> DailyIntake.pk row).
Proof.
  induction rows as [|r rows IH]; simpl; [tauto|].
  destruct (Z.eqb_spec (DailyIntake.pk r) (DailyIntake.pk row)) as [Heq|Hne].
  - intros [<-|Hin]; [now left|]. destruct (IH Hin) as [->|[? ?]]; auto.
  - intros [<-|Hin]; [right; auto|]. destruct (IH Hin) as [->|[? ?]]; auto.
Qed.

(** The rows [save_intake] leaves, when it succeeds. *)
Lemma save_intake_rows self w w' :
  Orm.save_intake self w = (w', Ok tt) ->
  forall d, In d (daily_intakes w') ->
    d = self \/ (In d (daily_intakes w) /\ DailyIntake.pk d <> DailyIntake.pk self).
Proof.
  unfold Orm.save_intake.
  destruct (existsb _ (daily_intakes w)) eqn:Hex;
    match goal with
    | |- context [Orm.execute ?s ?f w] =>
        destruct (execute_cases s f w) as [Hr|Hr]; rewrite Hr
    end;
    try discriminate; intros Heq; inversion Heq; subst; clear Heq; simpl; intros d Hin.
  - now apply In_replace_intake.
  - destruct Hin as [<-|Hin]; [now left|]. right. split; [exact Hin|].
    intros Hpk.
    assert (Hfalse : existsb (fun r => (DailyIntake.pk r =? DailyIntake.pk self)%Z)
                       (daily_intakes w) = true).
    { apply existsb_exists. exists d. split; [exact Hin|]. now apply Z.eqb_eq. }
    congruence.
Qed.

(** After a [save] that returns, the rows of the entry's day carry the
    sums of the day's stored entries. *)
Lemma save_sets_day_totals self w w' saved :
  Models.save self w = (w', Ok saved) ->
  totals_agree_for (DailyIntake.pk (FoodEntry.daily_intake self)) w'.
Proof.
  intros Hsave. rewrite save_unfold in Hsave. cbv zeta in Hsave.
  destruct (Orm.save_entry _ w) as [w1 [stored|e]] eqn:Hentry; [|discriminate].
  destruct (Orm.save_intake _ w1) as [w2 [[]|e]] eqn:Hintake; [|discriminate].
  inversion Hsave; subst w2 saved; clear Hsave.
  apply save_entry_stores in Hentry as (id & -> & _ & _).
  pose proof (save_intake_keeps_entries _ _ Hintake) as Hrows.
  intros d Hin Hpk.
  destruct (save_intake_rows _ _ Hintake d Hin) as [->|[_ Hne]].
  - simpl. apply entries_sums_same_day; [reflexivity|now symmetry].
  - exfalso. apply Hne. simpl. exact Hpk.
Qed.

End TotalsFacts.

(** X1. A new entry keeps the totals of every day in step with its entries:
    the totals of its own day are recomputed, and it is no entry of
    another day. *)
Theorem save_new_entry_keeps_totals {env : Environment}
  (self : FoodEntry.t) (w w' : world) (saved : FoodEntry.t) :
  totals_agree w ->
  FoodEntry.pk self = None ->
  Models.save self w = (w', Ok saved) ->
  totals_agree w'.
Proof.
  intros Hagree Hnew Hsave d Hin.
  destruct (Z.eq_dec (DailyIntake.pk d) (DailyIntake.pk (FoodEntry.daily_intake self)))
    as [Hday|Hother].
  - exact (save_sets_day_totals _ _ Hsave d Hin Hday).
  - rewrite save_unfold in Hsave. cbv zeta in Hsave.
    destruct (Orm.save_entry _ w) as [w1 [stored|e]] eqn:Hentry; [|discriminate].
    destruct (Orm.save_intake _ w1) as [w2 [[]|e]] eqn:Hintake; [|discriminate].
    inversion Hsave; subst w2 saved; clear Hsave.
    pose proof (save_intake_keeps_entries _ _ Hintake) as Hrows.
    assert (Hw1 : food_entries w1
                  = Orm.entry_row (next_pk w)
                      (Models.with_consumed
                         (FoodItem.protein_per_100g (FoodEntry.food_item self)
                          * FoodEntry.amount_grams self / 100)%float
                         (FoodItem.calories_per_100g (FoodEntry.food_item self)
                          * FoodEntry.amount_grams self / 100)%float self)
                    :: food_entries w
                  /\ daily_intakes w1 = daily_intakes w
                  /\ FoodEntry.daily_intake stored = FoodEntry.daily_intake self).
    { revert Hentry. unfold Orm.save_entry, abind, ret. simpl. rewrite Hnew.
      match goal with
      | |- context [Orm.execute ?s ?f w] =>
          destruct (execute_cases s f w) as [Hr|Hr]; rewrite Hr
      end; [discriminate|].
      intros Heq; inversion Heq; subst; simpl; auto. }
    destruct Hw1 as (Hrows1 & Hdays1 & Hstored).
    destruct (save_intake_rows _ _ Hintake d Hin) as [->|[Hin1 _]].
    { exfalso. apply Hother. simpl. now rewrite Hstored. }
    rewrite Hdays1 in Hin1. destruct (Hagree d Hin1) as [Hp Hc].
    assert (Hsame : Orm.entries_all d w' = Orm.entries_all d w).
    { unfold Orm.entries_all. rewrite Hrows, Hrows1. simpl.
      destruct (Z.eqb_spec (DailyIntake.pk (FoodEntry.daily_intake self)) (DailyIntake.pk d));
        [exfalso; apply Hother; auto|reflexivity]. }
    unfold Models.entries_protein, Models.entries_calories in *.
    rewrite Hsame. auto.
Qed.

(** C1. In the scenario of the specification the totals follow the two
    additions (35 g of protein), and stay there when the first entry is
    deleted: the stored total is 35 while the entries that are left add
    up to 5. *)
Theorem delete_leaves_totals_stale :
  totals_agree after_second
  /\ Models.delete (env := offline) first_saved after_second = (after_removal, Ok tt)
  /\ List.map FoodEntryRow.protein_consumed (food_entries after_second) = [5; 30]%float
  /\ List.map FoodEntryRow.protein_consumed (food_entries after_removal) = [5]%float
  /\ List.map DailyIntake.total_protein (daily_intakes after_second) = [35]%float
  /\ List.map DailyIntake.total_protein (daily_intakes after_removal) = [35]%float
  /\ Models.entries_protein today after_removal = 5%float
  /\ ~ totals_agree after_removal.
Proof.
  split.
  { intros d [<-|[]]. split; vm_compute; reflexivity. }
  repeat (split; [vm_compute; reflexivity|]).
  intros Hagree.
  destruct (Hagree (Models.with_totals 35 245 today)) as [Hp _].
  { vm_compute. left. reflexivity. }
  vm_compute in Hp. discriminate Hp.
Qed.

(** ** The two writes of [save] *)

(** C2, as the code has it. [save] issues the entry's write and then the
    write of the totals, with no transaction around them. When it
    returns, the rows of the entry's day carry the sums of the day's
    entries. When it raises, the stored totals are the ones from before
    the call, and either nothing was written (the entry's write failed)
    or the world is the one the entry's write left: the entry is stored
    and visible without its totals. *)
Theorem save_two_writes {env : Environment} (self : FoodEntry.t) (w : world) :
  let computed :=
    Models.with_consumed
      (FoodItem.protein_per_100g (FoodEntry.food_item self)
       * FoodEntry.amount_grams self / 100)%float
      (FoodItem.calories_per_100g (FoodEntry.food_item self)
       * FoodEntry.amount_grams self / 100)%float
      self in
  match Models.save self w with
  | (w', Ok saved) =>
      totals_agree_for (DailyIntake.pk (FoodEntry.daily_intake self)) w'
  | (w', Raise e) =>
      e = DatabaseError
      /\ daily_intakes w' = daily_intakes w
      /\ (w' = w
          \/ exists id,
               Orm.save_entry computed w = (w', Ok (Orm.with_pk id computed))
               /\ In (Orm.entry_row id computed) (food_entries w'))
  end.
Proof.
  intros computed.
  destruct (Models.save self w) as [w' [saved|e]] eqn:Hsave.
  - exact (save_sets_day_totals _ _ Hsave).
  - rewrite save_unfold in Hsave. cbv zeta in Hsave. fold computed in Hsave.
    destruct (Orm.save_entry computed w) as [w1 [stored|e1]] eqn:Hentry.
    + destruct (Orm.save_intake _ w1) as [w2 [[]|e2]] eqn:Hintake; [discriminate|].
      inversion Hsave; subst w2 e2; clear Hsave.
      apply save_intake_refused in Hintake as [-> ->].
      destruct (save_entry_stores _ _ Hentry) as (id & -> & Hin & Hdays).
      split; [reflexivity|]. split; [exact Hdays|].
      right. exists id. auto.
    + inversion Hsave; subst w1 e1; clear Hsave.
      apply save_entry_refused in Hentry as [-> ->]. auto.
Qed.

(** C2, as the specification states it, fails: with a storage layer
    that fails the write of the totals, [save] raises, the entry is
    stored with its 30 g of protein and the day's total is still 0. *)
Lemma save_is_not_atomic :
  let out := Models.save (env := totals_write_fails) first_entry morning in
  snd out = Raise DatabaseError
  /\ List.map FoodEntryRow.protein_consumed (food_entries (fst out)) = [30]%float
  /\ food_entries morning = []
  /\ List.map DailyIntake.total_protein (daily_intakes (fst out)) = [0]%float.
Proof. vm_compute. repeat split. Qed.

(** ** Comparisons of floats *)

Section FloatFacts.




(** A float equal to zero is not above zero. *)
Lemma zero_not_positive (x : float) : (x =? 0)%float = true -> (0 <? x)%float = false.
Proof.
  rewrite eqb_spec, ltb_spec.
  replace (Prim2SF 0) with (S754_zero false) by reflexivity.
  unfold SFeqb, SFltb.
  destruct (Prim2SF x) as [sx|sx| |sx mx ex]; simpl; try congruence;
    destruct sx; simpl; congruence.
Qed.

(** A number that is not below a positive bound is above zero. *)
Lemma not_below_positive (x bound : float) :
  (0 <? bound)%float = true ->
  (x <? bound)%float = false ->
  is_nan x = false ->
  (0 <? x)%float = true.
Proof.
  unfold is_nan. rewrite eqb_spec, !ltb_spec.
  replace (Prim2SF 0) with (S754_zero false) by reflexivity.
  unfold SFeqb, SFltb.
  destruct (Prim2SF x) as [sx|sx| |sx mx ex], (Prim2SF bound) as [sb|sb| |sb mb eb];
    simpl; try congruence;
    try (destruct sx; simpl; congruence);
    try (destruct sb; simpl; congruence);
    try (destruct sx, sb; simpl; congruence).
Qed.

End FloatFacts.

(** ** Validation of the amount *)




(** ** Share of the goal *)

(** C6. [protein_percentage] is 0 for a user without a profile and for a
    goal of 0, and [total_protein / goal * 100] for a goal above 0; every
    goal that passes the field's validators (10 to 500) and is a number
    is above 0. *)
Theorem protein_percentage_of_goal (self : DailyIntake.t) (w : world) :
  (Orm.userprofile (DailyIntake.user_id self) w = None ->
   Models.protein_percentage self w = 0%float)
  /\ (forall profile,
        Orm.userprofile (DailyIntake.user_id self) w = Some profile ->
        let goal := UserProfile.daily_protein_goal profile in
        ((goal =? 0)%float = true -> Models.protein_percentage self w = 0%float)
        /\ ((0 <? goal)%float = true ->
            Models.protein_percentage self w
            = (DailyIntake.total_protein self / goal * 100)%float)
        /\ (Models.daily_protein_goal_validators goal = Ok tt ->
            is_nan goal = false ->
            Models.protein_percentage self w
            = (DailyIntake.total_protein self / goal * 100)%float)).
Proof.
  split.
  - unfold Models.protein_percentage. intros ->. reflexivity.
  - intros profile Hprofile goal. unfold Models.protein_percentage.
    rewrite Hprofile. fold goal. split; [|split].
    + intros Hzero. now rewrite (@zero_not_positive _ Hzero).
    + intros ->. reflexivity.
    + unfold Models.daily_protein_goal_validators, Models.MinValueValidator, bind.
      destruct (goal <? 10)%float eqn:Hlow; [discriminate|].
      intros _ Hnum.
      rewrite (@not_below_positive goal 10); auto.
Qed.

(** The day of the scenario against a goal of 50 g, and the day of a
    user without a profile. *)
Lemma protein_percentage_of_goal_witness :
  Models.protein_percentage (Models.with_totals 35 245 today) morning = 70%float
  /\ Models.protein_percentage
       {| DailyIntake.pk := 9; DailyIntake.user_id := 8; DailyIntake.date := 20240501;
          DailyIntake.total_protein := 35; DailyIntake.total_calories := 245 |} morning
     = 0%float.
Proof.
  pose proof (protein_percentage_of_goal (Models.with_totals 35 245 today) morning)
    as [_ Hprofile].
  destruct (Hprofile _ eq_refl) as (_ & Hpositive & _).
  split; [exact (Hpositive eq_refl)|].
  apply (proj1 (protein_percentage_of_goal _ morning)). reflexivity.
Defined.

(** ** Upsert of a catalogued food *)

Section UpsertFacts.
Context {env : Environment}.

Lemma float_ne_false x y :
  FoodCacheService.float_ne x y = false -> (x =? y)%float = true.
Proof. unfold FoodCacheService.float_ne. now destruct (x =? y)%float. Qed.

Lemma float_ne_refl x : is_nan x = false -> FoodCacheService.float_ne x x = false.
Proof. unfold FoodCacheService.float_ne, is_nan. now destruct (x =? x)%float. Qed.

(** The diff loop, field by field: a field that differs takes the
    value of the dictionary, and [updated] tells whether one did. *)
Lemma update_fields_explicit food_data food_item :
  FoodCacheService.update_fields food_data food_item =
  (let d := fun field => FoodCacheService.differs field food_item food_data in
   (FoodItem.Build_t
      (FoodItem.pk food_item)
      (FoodItem.fdc_id food_item)
      (if d Key.name then FoodData.name food_data else FoodItem.name food_item)
      (if d Key.brand_owner
       then Some (FoodCacheService.brand_text (FoodData.brand_owner food_data))
       else FoodItem.brand_owner food_item)
      (if d Key.protein_per_100g then FoodData.protein_per_100g food_data
       else FoodItem.protein_per_100g food_item)
      (if d Key.calories_per_100g then FoodData.calories_per_100g food_data
       else FoodItem.calories_per_100g food_item)
      (if d Key.carbs_per_100g then FoodData.carbs_per_100g food_data
       else FoodItem.carbs_per_100g food_item)
      (if d Key.fat_per_100g then FoodData.fat_per_100g food_data
       else FoodItem.fat_per_100g food_item)
      (if d Key.fiber_per_100g then FoodData.fiber_per_100g food_data
       else FoodItem.fiber_per_100g food_item),
    d Key.name || d Key.brand_owner || d Key.protein_per_100g
    || d Key.calories_per_100g || d Key.carbs_per_100g || d Key.fat_per_100g
    || d Key.fiber_per_100g)).
Proof.
  destruct food_item as [pk id name brand p c cb f fb].
  destruct food_data as [id' name' brand' p' c' cb' f' fb'].
  unfold FoodCacheService.update_fields, Key.items, FoodCacheService.update_field.
  simpl.
  repeat match goal with
         | |- context [if ?b then _ else _] => destruct b; simpl
         end;
    reflexivity.
Qed.

(** What the diff loop leaves: the item keeps its key and identifier
    and carries the dictionary; it reports an update exactly when some
    field differed, and leaves the item alone otherwise. *)
Lemma update_fields_spec food_data food_item :
  let updated_item := fst (FoodCacheService.update_fields food_data food_item) in
  let updated := snd (FoodCacheService.update_fields food_data food_item) in
  FoodItem.pk updated_item = FoodItem.pk food_item
  /\ FoodItem.fdc_id updated_item = FoodItem.fdc_id food_item
  /\ carries updated_item food_data
  /\ (updated = false -> updated_item = food_item)
  /\ (no_difference food_item food_data -> updated = false)
  /\ (plain food_data -> no_difference updated_item food_data).
Proof.
  rewrite update_fields_explicit. cbv zeta. cbn [fst snd].
  split; [reflexivity|]. split; [reflexivity|].
  split; [|split; [|split]].
  - unfold carries, same_number. cbn [FoodItem.name FoodItem.brand_owner
      FoodItem.protein_per_100g FoodItem.calories_per_100g FoodItem.carbs_per_100g
      FoodItem.fat_per_100g FoodItem.fiber_per_100g].
    repeat split.
    + destruct (FoodCacheService.differs Key.name _ _) eqn:Hd; [reflexivity|].
      simpl in Hd. now destruct (String.eqb_spec (FoodItem.name food_item)
                                   (FoodData.name food_data)).
    + destruct (FoodCacheService.differs Key.brand_owner _ _) eqn:Hd; [reflexivity|].
      simpl in Hd.
      destruct (FoodItem.brand_owner food_item) as [s|],
               (FoodData.brand_owner food_data) as [s'|l]; try discriminate.
      simpl. destruct (String.eqb_spec s s'); [congruence|discriminate].
    + destruct (FoodCacheService.differs Key.protein_per_100g _ _) eqn:Hd;
        [now left|right; now apply float_ne_false].
    + destruct (FoodCacheService.differs Key.calories_per_100g _ _) eqn:Hd;
        [now left|right; now apply float_ne_false].
    + destruct (FoodCacheService.differs Key.carbs_per_100g _ _) eqn:Hd;
        [now left|right; now apply float_ne_false].
    + destruct (FoodCacheService.differs Key.fat_per_100g _ _) eqn:Hd;
        [now left|right; now apply float_ne_false].
    + destruct (FoodCacheService.differs Key.fiber_per_100g _ _) eqn:Hd;
        [now left|right; now apply float_ne_false].
  - intros Hnone.
    repeat (apply orb_false_elim in Hnone; destruct Hnone as [Hnone ?]).
    repeat match goal with
           | H : FoodCacheService.differs _ _ _ = false |- _ => rewrite H; clear H
           end.
    now destruct food_item.
  - intros Hno.
    rewrite !(Hno _ (eq_refl : Key.is_fdc_id Key.name = false)).
    rewrite !(Hno _ (eq_refl : Key.is_fdc_id Key.brand_owner = false)).
    rewrite !(Hno _ (eq_refl : Key.is_fdc_id Key.protein_per_100g = false)).
    rewrite !(Hno _ (eq_refl : Key.is_fdc_id Key.calories_per_100g = false)).
    rewrite !(Hno _ (eq_refl : Key.is_fdc_id Key.carbs_per_100g = false)).
    rewrite !(Hno _ (eq_refl : Key.is_fdc_id Key.fat_per_100g = false)).
    rewrite !(Hno _ (eq_refl : Key.is_fdc_id Key.fiber_per_100g = false)).
    reflexivity.
  - intros ((s & Hs) & Hp & Hc & Hcb & Hf & Hfb) field Hfield.
    destruct field; try discriminate Hfield;
      cbn [FoodCacheService.differs FoodItem.name FoodItem.brand_owner
           FoodItem.protein_per_100g FoodItem.calories_per_100g FoodItem.carbs_per_100g
           FoodItem.fat_per_100g FoodItem.fiber_per_100g];
      match goal with
      | |- context [if ?b then _ else _] => destruct b eqn:Hd
      end;
      auto using float_ne_refl.
    + now rewrite String.eqb_refl.
    + rewrite Hs. simpl. now rewrite String.eqb_refl.
Qed.

(** A table under its constraints holds a row once: the rows around it
    have other keys and other identifiers. *)
Lemma catalog_split w old :
  catalog_ok w ->
  In old (food_items w) ->
  exists before after,
    food_items w = before ++ old :: after
    /\ (forall r, In r (before ++ after) ->
          FoodItem.pk r <> FoodItem.pk old /\ FoodItem.fdc_id r <> FoodItem.fdc_id old).
Proof.
  intros (Hpk & Hid & _) Hin.
  destruct (in_split _ _ Hin) as (before & after & Hrows).
  exists before, after. split; [exact Hrows|].
  rewrite Hrows, !map_app in Hpk, Hid. simpl in Hpk, Hid.
  apply NoDup_remove_2 in Hpk. apply NoDup_remove_2 in Hid.
  intros r Hr. split; intros Heq.
  - apply Hpk. rewrite <- Heq, <- map_app. now apply in_map.
  - apply Hid. rewrite <- Heq, <- map_app. now apply in_map.
Qed.

Lemma filter_nothing {A : Type} (f : A -> bool) (l : list A) :
  (forall x, In x l -> f x = false) -> List.filter f l = [].
Proof.
  induction l as [|x l IH]; simpl; intros Hall; [reflexivity|].
  rewrite (Hall x) by auto. apply IH. auto.
Qed.

Lemma map_unchanged {A : Type} (f : A -> A) (l : list A) :
  (forall x, In x l -> f x = x) -> List.map f l = l.
Proof.
  induction l as [|x l IH]; simpl; intros Hall; [reflexivity|].
  rewrite (Hall x) by auto. f_equal. apply IH. auto.
Qed.

(** The rows with an identifier, around the one row that has it. *)
Lemma filter_fdc_id_around before item after fdc_id :
  FoodItem.fdc_id item = fdc_id ->
  (forall r, In r (before ++ after) -> FoodItem.fdc_id r <> fdc_id) ->
  List.filter (fun r => (FoodItem.fdc_id r =? fdc_id)%string) (before ++ item :: after)
  = [item].
Proof.
  intros Hid Hothers. rewrite filter_app. simpl.
  rewrite (proj2 (String.eqb_eq _ _) Hid).
  rewrite !filter_nothing; [reflexivity| |];
    intros r Hr; apply String.eqb_neq, Hothers, in_or_app; auto.
Qed.

Lemma replace_food_item_around before old item after :
  FoodItem.pk item = FoodItem.pk old ->
  (forall r, In r (before ++ after) -> FoodItem.pk r <> FoodItem.pk old) ->
  FoodCacheService.replace_food_item item (before ++ old :: after)
  = before ++ item :: after.
Proof.
  intros Hpk Hothers. unfold FoodCacheService.replace_food_item.
  rewrite map_app. simpl. rewrite Hpk, Z.eqb_refl.
  rewrite !map_unchanged; [reflexivity| |];
    intros r Hr;
    destruct (Z.eqb_spec (FoodItem.pk r) (FoodItem.pk old)) as [Heq|Hne];
    try reflexivity; exfalso; apply (Hothers r); auto using in_or_app.
Qed.

End UpsertFacts.

(** The update path of [get_or_create_food_item], for a dictionary whose
    identifier is catalogued once. *)
Lemma upsert_found {env : Environment}
  (food_data : FoodData.t) (w : world) (old : FoodItem.t) :
  storage_sound ->
  catalog_ok w ->
  In old (food_items w) ->
  FoodItem.fdc_id old = FoodData.fdc_id food_data ->
  exists food_item w',
    FoodCacheService.get_or_create_food_item food_data w = (w', Ok (food_item, false))
    /\ FoodCacheService.with_fdc_id (FoodData.fdc_id food_data) w' = [food_item]
    /\ List.length (food_items w') = List.length (food_items w)
    /\ carries food_item food_data
    /\ catalog_ok w'
    /\ (no_difference old food_data -> w' = w /\ food_item = old)
    /\ (plain food_data -> no_difference food_item food_data)
    /\ (w' = w \/ journal w' = UPDATE api_fooditem (FoodItem.pk old) :: journal w).
Proof.
  intros Hsound Hok Hin Hid.
  destruct (@catalog_split w old Hok Hin) as (before & after & Hrows & Hothers).
  assert (Hone : FoodCacheService.with_fdc_id (FoodData.fdc_id food_data) w = [old]).
  { unfold FoodCacheService.with_fdc_id. rewrite Hrows.
    apply filter_fdc_id_around; [exact Hid|].
    intros r Hr. rewrite <- Hid. now apply Hothers. }
  pose proof (update_fields_spec food_data old) as Hspec. cbv zeta in Hspec.
  unfold FoodCacheService.get_or_create_food_item. rewrite Hone.
  destruct (FoodCacheService.update_fields food_data old) as [item updated].
  cbn [fst snd] in Hspec.
  destruct Hspec as (Hpk & Hfdc & Hcarries & Hsame & Hnodiff & Hplain).
  destruct updated.
  - exists item.
    unfold FoodCacheService.save_food_item, abind, ret.
    rewrite execute_accepted by apply Hsound.
    eexists. split; [reflexivity|].
    assert (Hrows' : FoodCacheService.replace_food_item item (food_items w)
                     = before ++ item :: after).
    { rewrite Hrows. apply replace_food_item_around; [exact Hpk|].
      intros r Hr. now apply Hothers. }
    unfold FoodCacheService.with_fdc_id. cbn [food_items with_journal with_food_items].
    rewrite Hrows'. split.
    { apply filter_fdc_id_around; [congruence|].
      intros r Hr. rewrite <- Hid. now apply Hothers. }
    split; [rewrite Hrows, !length_app; reflexivity|].
    split; [exact Hcarries|]. split.
    { destruct Hok as (Hk & Hi & Hfresh). unfold catalog_ok.
      cbn [food_items next_pk with_journal with_food_items].
      rewrite Hrows in Hk, Hi. rewrite !map_app in *. cbn [List.map] in *.
      rewrite Hpk, Hfdc. repeat split; auto.
      intros r Hr. apply in_app_or in Hr as [Hr|[<-|Hr]].
      - apply Hfresh. rewrite Hrows. apply in_or_app. auto.
      - rewrite Hpk. apply Hfresh, Hin.
      - apply Hfresh. rewrite Hrows. apply in_or_app. simpl. auto. }
    split; [intros Hno; specialize (Hnodiff Hno); discriminate|].
    split; [exact Hplain|]. right. simpl. now rewrite Hpk.
  - specialize (Hsame eq_refl). subst item.
    exists old, w. split; [reflexivity|]. split; [exact Hone|].
    split; [reflexivity|]. split; [exact Hcarries|]. split; [exact Hok|].
    split; [auto|]. split; [exact Hplain|]. now left.
Qed.

(** C3. Upserting a dictionary whose identifier is already catalogued
    returns the stored item with [created = False]; afterwards the
    catalogue has as many rows as before and exactly one with that
    identifier, which carries the fields of the dictionary. When the diff
    check finds no field different, nothing is written and the world is
    as it was; and after any such upsert of a plain dictionary the diff
    check finds no difference, so that upserting it again writes
    nothing. At most one statement, an UPDATE of that row, is issued. *)
Theorem upsert_existing {env : Environment}
  (food_data : FoodData.t) (w : world) (old : FoodItem.t) :
  storage_sound ->
  catalog_ok w ->
  In old (food_items w) ->
  FoodItem.fdc_id old = FoodData.fdc_id food_data ->
  exists food_item w',
    FoodCacheService.get_or_create_food_item food_data w = (w', Ok (food_item, false))
    /\ FoodCacheService.with_fdc_id (FoodData.fdc_id food_data) w' = [food_item]
    /\ List.length (food_items w') = List.length (food_items w)
    /\ carries food_item food_data
    /\ catalog_ok w'
    /\ (no_difference old food_data -> w' = w /\ food_item = old)
    /\ (plain food_data -> no_difference food_item food_data)
    /\ (w' = w \/ journal w' = UPDATE api_fooditem (FoodItem.pk old) :: journal w).
Proof.
  intros Hsound Hok Hin Hid.
  exact (@upsert_found env food_data w old Hsound Hok Hin Hid).
Qed.


Section UpsertTwice.
Context {env : Environment}.

Lemma NoDup_snoc {A : Type} (l : list A) (x : A) :
  NoDup l -> ~ In x l -> NoDup (l ++ [x]).
Proof.
  induction 1 as [|y l Hy Hl IH]; simpl; intros Hx.
  - constructor; [auto|constructor].
  - constructor.
    + intros Hin. apply in_app_or in Hin as [Hin|[<-|[]]]; auto.
    + apply IH. auto.
Qed.

(** A row made from a plain dictionary shows no difference to it. *)
Lemma new_food_item_no_difference id food_data :
  plain food_data ->
  no_difference (FoodCacheService.new_food_item id food_data) food_data.
Proof.
  intros ((s & Hs) & Hp & Hc & Hcb & Hf & Hfb) field Hfield.
  destruct field; try discriminate Hfield; simpl; auto using float_ne_refl.
  - now rewrite String.eqb_refl.
  - rewrite Hs. simpl. now rewrite String.eqb_refl.
Qed.

(** Creating a row keeps the constraints of the table. *)
Lemma create_keeps_catalog_ok w food_data (statements : list db_write) :
  catalog_ok w ->
  FoodCacheService.with_fdc_id (FoodData.fdc_id food_data) w = [] ->
  catalog_ok
    (with_journal statements
       (with_next_pk (next_pk w + 1)
          (with_food_items
             (food_items w ++ [FoodCacheService.new_food_item (next_pk w) food_data]) w))).
Proof.
  intros (Hpk & Hid & Hfresh) Hnone. unfold catalog_ok.
  cbn [food_items next_pk with_journal with_next_pk with_food_items].
  rewrite !map_app. cbn [List.map FoodCacheService.new_food_item FoodItem.pk FoodItem.fdc_id].
  split; [|split].
  - apply NoDup_snoc; [exact Hpk|].
    intros Hin. apply in_map_iff in Hin as (r & Heq & Hr).
    specialize (Hfresh r Hr). lia.
  - apply NoDup_snoc; [exact Hid|].
    intros Hin. apply in_map_iff in Hin as (r & Heq & Hr).
    assert (Hfound : In r (FoodCacheService.with_fdc_id (FoodData.fdc_id food_data) w)).
    { apply filter_In. split; [exact Hr|]. now apply String.eqb_eq. }
    rewrite Hnone in Hfound. destruct Hfound.
  - intros r Hr. apply in_app_or in Hr as [Hr|[<-|[]]].
    + specialize (Hfresh r Hr). lia.
    + simpl. lia.
Qed.

(** X2. Upserting the same plain dictionary twice in a row: whatever the
    first call did (created the row, updated it or found it equal), the
    second returns the same item with [created = False] and leaves the
    world of the first call as it is: no second write. *)
Theorem upsert_twice_writes_once (food_data : FoodData.t) (w : world) :
  storage_sound ->
  catalog_ok w ->
  plain food_data ->
  exists food_item created w1,
    FoodCacheService.get_or_create_food_item food_data w = (w1, Ok (food_item, created))
    /\ FoodCacheService.get_or_create_food_item food_data w1 = (w1, Ok (food_item, false))
    /\ FoodCacheService.with_fdc_id (FoodData.fdc_id food_data) w1 = [food_item].
Proof.
  intros Hsound Hok Hplain.
  destruct (FoodCacheService.with_fdc_id (FoodData.fdc_id food_data) w)
    as [|old rest] eqn:Hfound.
  - pose proof (create_keeps_catalog_ok food_data
                  (INSERT api_fooditem (next_pk w) :: journal w) Hok Hfound) as Hok1.
    set (item := FoodCacheService.new_food_item (next_pk w) food_data) in *.
    set (w1 := with_journal _ _) in Hok1.
    assert (Hin1 : In item (food_items w1)).
    { subst w1. cbn [food_items with_journal with_next_pk with_food_items].
      apply in_or_app. simpl. auto. }
    destruct (@upsert_found env food_data w1 item Hsound Hok1 Hin1 eq_refl)
      as (item2 & w2 & Hsecond & Hone & _ & _ & _ & Hsame & _).
    destruct (Hsame (new_food_item_no_difference _ Hplain)) as [-> ->].
    exists item, true, w1. split; [|split; [exact Hsecond|exact Hone]].
    unfold FoodCacheService.get_or_create_food_item. rewrite Hfound.
    unfold abind, ret. rewrite execute_accepted by apply Hsound. reflexivity.
  - assert (Hold : In old (food_items w)
                   /\ FoodItem.fdc_id old = FoodData.fdc_id food_data).
    { assert (Hin : In old (FoodCacheService.with_fdc_id (FoodData.fdc_id food_data) w))
        by (rewrite Hfound; simpl; auto).
      apply filter_In in Hin as [Hin Heq]. split; [exact Hin|now apply String.eqb_eq]. }
    destruct Hold as [Hin Hid].
    destruct (@upsert_found env food_data w old Hsound Hok Hin Hid)
      as (item & w1 & Hfirst & Hone & _ & _ & Hok1 & _ & Hnodiff & _).
    assert (Hitem : In item (food_items w1)
                    /\ FoodItem.fdc_id item = FoodData.fdc_id food_data).
    { assert (Hin1 : In item (FoodCacheService.with_fdc_id (FoodData.fdc_id food_data) w1))
        by (rewrite Hone; simpl; auto).
      apply filter_In in Hin1 as [Hin1 Heq]. split; [exact Hin1|now apply String.eqb_eq]. }
    destruct Hitem as [Hin1 Hid1].
    destruct (@upsert_found env food_data w1 item Hsound Hok1 Hin1 Hid1)
      as (item2 & w2 & Hsecond & _ & _ & _ & _ & Hsame & _).
    destruct (Hsame (Hnodiff Hplain)) as [-> ->].
    exists item, false, w1. auto.
Qed.

End UpsertTwice.

Lemma offline_storage_sound : storage_sound (env := offline).
Proof. intros w stmt. reflexivity. Qed.

Lemma with_x123_catalog_ok : catalog_ok with_x123.
Proof.
  unfold catalog_ok. change (food_items with_x123)
    with [chicken; rice; FoodCacheService.new_food_item (env := offline) 4 (x123 10)].
  simpl. repeat split.
  - repeat constructor; simpl; intuition lia.
  - repeat constructor; simpl; intuition discriminate.
  - intros r [<-|[<-|[<-|[]]]]; vm_compute; reflexivity.
Qed.

(** The second upsert of the scenario: X123 is catalogued with 10 g and
    arrives with 15 g. *)
Lemma upsert_existing_witness :
  exists food_item w',
    FoodCacheService.get_or_create_food_item (env := offline) (x123 15) with_x123
    = (w', Ok (food_item, false))
    /\ FoodCacheService.with_fdc_id "X123" w' = [food_item]
    /\ same_number (FoodItem.protein_per_100g food_item) 15.
Proof.
  destruct (@upsert_existing offline (x123 15) with_x123
              (FoodCacheService.new_food_item (env := offline) 4 (x123 10))
              offline_storage_sound with_x123_catalog_ok)
    as (food_item & w' & Hcall & Hone & _ & Hcarries & _).
  - vm_compute. auto.
  - reflexivity.
  - exists food_item, w'. split; [exact Hcall|]. split; [exact Hone|].
    apply Hcarries.
Defined.

(** The upsert scenario of the specification, run: one row with the
    identifier, 15 g of protein, [created = False], one UPDATE. *)
Example upsert_scenario :
  let out := FoodCacheService.get_or_create_food_item (env := offline) (x123 15) with_x123 in
  snd out = Ok (FoodCacheService.new_food_item (env := offline) 4 (x123 15), false)
  /\ FoodCacheService.with_fdc_id "X123" (fst out)
     = [FoodCacheService.new_food_item (env := offline) 4 (x123 15)]
  /\ journal (fst out) = [UPDATE api_fooditem 4; INSERT api_fooditem 4].
Proof. vm_compute. repeat split. Qed.

(** ** Search *)

Section SearchFacts.
Context {env : Environment}.

(** A string is no raw record: [_format_food_data] catches the
    [AttributeError] of its first [get]. *)
Lemma format_foods_of_strings (foods : list json) :
  Forall (fun food => exists s, food = JStr s) foods ->
  FoodAPIService.format_foods foods = [].
Proof.
  induction 1 as [|food foods [s ->] _ IH]; simpl; [reflexivity|exact IH].
Qed.

Lemma chars_are_strings (s : string) :
  Forall (fun food => exists s', food = JStr s') (Json.chars s).
Proof. induction s; simpl; constructor; eauto. Qed.

Lemma keys_are_strings (d : list (string * json)) :
  Forall (fun food => exists s', food = JStr s')
    (List.map (fun kv => JStr (fst kv)) d).
Proof. induction d; simpl; constructor; eauto. Qed.

(** An unavailable provider yields no record. *)
Lemma search_reply_unavailable (reply : http_outcome) :
  unavailable reply -> FoodAPIService.search_reply reply = [].
Proof.
  intros [ |status| |data Hdata|items foods Hfoods Hnot]; simpl; try reflexivity.
  - destruct data; try reflexivity. now destruct (Hdata items).
  - rewrite Hfoods. simpl.
    destruct foods as [ | | | |s|l|d]; simpl; try reflexivity.
    + apply format_foods_of_strings, chars_are_strings.
    + now destruct (Hnot l).
    + apply format_foods_of_strings, keys_are_strings.
Qed.

End SearchFacts.

(** C7. A search whose query the view carries out (two characters or
    more) does not fail when the provider is unavailable: it returns the
    first 20 local matches, in the order of the name, exactly as the
    catalogue held them before the call, and writes nothing; at most the
    request is sent. [get_queryset] returns a list: no exception leaves
    it. *)
Theorem search_falls_back_to_local {env : Environment} (query : string) (w : world) :
  (2 <= Str.len query)%Z ->
  unavailable (session_get (FoodAPIService.search_request query 10)) ->
  let out := FoodSearchView.get_queryset query w in
  snd out = List.firstn 20 (FoodSearchView.filter_name_icontains query w)
  /\ food_items (fst out) = food_items w
  /\ journal (fst out) = journal w
  /\ (fst out = w
      \/ fst out = with_http_log (FoodAPIService.search_request query 10 :: http_log w) w).
Proof.
  intros Hlen Hdown. unfold FoodSearchView.get_queryset.
  destruct (Z.ltb_spec (Str.len query) 2) as [Hshort|_]; [lia|].
  destruct (Z.of_nat _ <? 5)%Z.
  - unfold FoodAPIService.search_foods.
    destruct (Str.len (Str.strip query) <? 2)%Z; simpl; auto.
    rewrite (search_reply_unavailable Hdown). simpl. auto.
  - simpl. auto.
Qed.

(** The morning's catalogue searched for chicken, the provider down. *)
Lemma search_falls_back_to_local_witness :
  snd (FoodSearchView.get_queryset (env := offline) "chicken" morning) = [chicken].
Proof.
  assert (Hlen : (2 <= Str.len "chicken")%Z) by (vm_compute; discriminate).
  assert (Hdown : unavailable
                    (session_get (Environment := offline)
                       (FoodAPIService.search_request (env := offline) "chicken" 10)))
    by constructor.
  exact (proj1 (@search_falls_back_to_local offline "chicken" morning Hlen Hdown)).
Defined.

(** C10. A query shorter than two characters stops the view at once: an
    empty result and the world as it was, so no request and no write. A
    query that is shorter than two characters once stripped stops
    [search_foods] the same way, and the view around it then leaves the
    world as it was too. *)
Theorem short_query_does_nothing {env : Environment}
  (query : string) (limit : Z) (w : world) :
  ((Str.len query < 2)%Z -> FoodSearchView.get_queryset query w = (w, []))
  /\ ((Str.len (Str.strip query) < 2)%Z ->
      FoodAPIService.search_foods query limit w = (w, []))
  /\ ((Str.len (Str.strip query) < 2)%Z ->
      fst (FoodSearchView.get_queryset query w) = w).
Proof.
  assert (Hservice : forall n, (Str.len (Str.strip query) < 2)%Z ->
                               FoodAPIService.search_foods query n w = (w, [])).
  { intros n Hshort. unfold FoodAPIService.search_foods.
    now rewrite (proj2 (Z.ltb_lt _ _) Hshort). }
  split; [|split].
  - intros Hshort. unfold FoodSearchView.get_queryset.
    now rewrite (proj2 (Z.ltb_lt _ _) Hshort).
  - apply Hservice.
  - intros Hshort. unfold FoodSearchView.get_queryset.
    destruct (Str.len query <? 2)%Z; [reflexivity|].
    destruct (Z.of_nat _ <? 5)%Z; [|reflexivity].
    rewrite (Hservice 10%Z Hshort). reflexivity.
Qed.

(** A query of one character, and one of one character between spaces. *)
Lemma short_query_does_nothing_witness :
  FoodSearchView.get_queryset (env := offline) "c" morning = (morning, [])
  /\ FoodAPIService.search_foods (env := offline) " c " 10 morning = (morning, []).
Proof.
  split.
  - apply (proj1 (@short_query_does_nothing offline "c" 10 morning)).
    vm_compute. reflexivity.
  - apply (proj1 (proj2 (@short_query_does_nothing offline " c " 10 morning))).
    vm_compute. reflexivity.
Defined.

(** ** Normalization of raw records *)

Section FormatFacts.
Context {env : Environment}.

Lemma slice_to_length (n : nat) (s : string) :
  (String.length (Str.slice_to n s) <= n)%nat.
Proof.
  unfold Str.slice_to. revert s.
  induction n as [|n IH]; intros [|c s]; simpl; auto with arith.
Qed.

(** What [_format_food_data] read when it returns a dictionary. *)
Lemma format_food_data_inv (raw : json) (detailed : bool) (formatted : FoodData.t) :
  FoodAPIService._format_food_data raw detailed = Some formatted ->
  exists id description brand_raw food_nutrients entries nutrients,
    Json.get raw "fdcId" (JStr "") = Ok id
    /\ Json.get raw "description" (JStr "") = Ok (JStr description)
    /\ Json.get raw "brandOwner" (JStr "") = Ok brand_raw
    /\ Json.get raw "foodNutrients" (JList []) = Ok food_nutrients
    /\ Json.iter food_nutrients = Ok entries
    /\ FoodAPIService.read_nutrients nutrients_empty entries = Ok nutrients
    /\ FoodData.fdc_id formatted = FoodAPIService.py_str id
    /\ FoodData.fdc_id formatted <> ""%string
    /\ FoodData.name formatted = Str.slice_to 200 (Str.title description)
    /\ Str.title description <> ""%string
    /\ (if Json.truthy brand_raw
        then FoodAPIService.py_slice_200 brand_raw = Ok (FoodData.brand_owner formatted)
        else FoodData.brand_owner formatted = BrandStr "")
    /\ (forall n, nutrient_field n formatted = nutrients_get nutrients n).
Proof.
  unfold FoodAPIService._format_food_data, except_None, bind.
  destruct (Json.get raw "fdcId" (JStr "")) as [id|] eqn:Hid; [|discriminate].
  destruct (Json.get raw "description" (JStr "")) as [description|] eqn:Hdesc;
    [|discriminate].
  destruct description as [ | | | |description| | ]; simpl; try discriminate.
  destruct (Json.get raw "brandOwner" (JStr "")) as [brand_raw|] eqn:Hbrand;
    [|discriminate].
  destruct (Str.is_empty (FoodAPIService.py_str id)) eqn:Hid_empty;
    [discriminate|].
  destruct (Str.is_empty (Str.title description)) eqn:Hname_empty;
    [discriminate|]. simpl.
  destruct (Json.get raw "foodNutrients" (JList [])) as [food_nutrients|] eqn:Hfn;
    [|discriminate].
  destruct (Json.iter food_nutrients) as [entries|] eqn:Hiter; [|discriminate].
  destruct (FoodAPIService.read_nutrients nutrients_empty entries)
    as [nutrients|] eqn:Hread; [|discriminate].
  destruct (Json.truthy brand_raw) eqn:Htruthy.
  - destruct (FoodAPIService.py_slice_200 brand_raw) as [brand|] eqn:Hslice;
      [|discriminate].
    intros Heq. inversion Heq; subst formatted; clear Heq.
    exists id, description, brand_raw, food_nutrients, entries, nutrients.
    rewrite Htruthy. simpl.
    repeat split; auto.
    + intros Hempty. rewrite Hempty in Hid_empty. discriminate.
    + intros Hempty. rewrite Hempty in Hname_empty. discriminate.
    + now intros [].
  - intros Heq. inversion Heq; subst formatted; clear Heq.
    exists id, description, brand_raw, food_nutrients, entries, nutrients.
    rewrite Htruthy. simpl.
    repeat split; auto.
    + intros Hempty. rewrite Hempty in Hid_empty. discriminate.
    + intros Hempty. rewrite Hempty in Hname_empty. discriminate.
    + now intros [].
Qed.




End FormatFacts.



(** ** Units of the nutrients *)

(** X3. What the loop over [foodNutrients] does with an entry about a
    nutrient it knows, whose unit is a string: the value is taken when
    the unit is G, whichever the nutrient, or KCAL and the nutrient is
    the energy; any other unit leaves the dictionary as it is. *)
Theorem read_nutrient_units {env : Environment}
  (nutrients : nutrients_dict) (nutrient inner id amount : json)
  (unit_name : string) (n : nutrient_name) :
  Json.get nutrient "nutrient" (JDict []) = Ok inner ->
  Json.get inner "id" (JStr "") = Ok id ->
  FoodAPIService.nutrient_mapping (FoodAPIService.py_str id) = Some n ->
  Json.get nutrient "amount" (JInt 0) = Ok amount ->
  Json.get inner "unitName" (JStr "") = Ok (JStr unit_name) ->
  FoodAPIService.read_nutrient nutrients nutrient =
  if (Str.upper unit_name =? "G")%string
     || ((Str.upper unit_name =? "KCAL")%string && nutrient_name_eqb n calories)
  then (v <- FoodAPIService.float_amount_or_0 amount ;;
        Ok (nutrients_set n v nutrients))%py
  else Ok nutrients.
Proof.
  intros Hinner Hid Hmap Hamount Hunit.
  unfold FoodAPIService.read_nutrient, bind.
  rewrite Hinner, Hid, Hmap, Hamount, Hunit. simpl.
  destruct (String.eqb_spec (Str.upper unit_name) "KCAL") as [Hkcal|_]; simpl.
  - rewrite Hkcal. simpl. destruct (nutrient_name_eqb n calories); reflexivity.
  - destruct (Str.upper unit_name =? "G")%string; reflexivity.
Qed.

(** C9. The energy of a raw record that is tagged with grams is taken as
    calories (5.0 here), although the unit is not kilocalories; protein
    tagged with kilocalories is left at 0.0, as the specification has it. *)
Theorem energy_tagged_grams_is_accepted {env : Environment} :
  FoodAPIService._format_food_data raw_chicken false =
  Some {| FoodData.fdc_id := "171077";
          FoodData.name := "Chicken, Breast Raw";
          FoodData.brand_owner := BrandStr "";
          FoodData.protein_per_100g := 0;
          FoodData.calories_per_100g := 5;
          FoodData.carbs_per_100g := 0;
          FoodData.fat_per_100g := 3;
          FoodData.fiber_per_100g := 0 |}.
Proof. reflexivity. Qed.

(** ** The theorems at the scenarios *)

Lemma morning_totals_agree : totals_agree morning.
Proof. intros d [<-|[]]. split; reflexivity. Qed.

Lemma morning_catalog_ok : catalog_ok morning.
Proof.
  unfold catalog_ok. simpl. repeat split.
  - repeat constructor; simpl; intuition lia.
  - repeat constructor; simpl; intuition discriminate.
  - intros r [<-|[<-|[]]]; reflexivity.
Qed.

Lemma x123_plain (protein_per_100g : float) :
  is_nan protein_per_100g = false -> plain (x123 protein_per_100g).
Proof. intros Hnum. unfold plain. simpl. repeat split; eauto. Qed.

(** The first addition of the scenario keeps totals and entries in
    step. *)
Lemma save_new_entry_keeps_totals_witness : totals_agree after_first.
Proof.
  apply (@save_new_entry_keeps_totals offline first_entry morning after_first first_saved).
  - exact morning_totals_agree.
  - reflexivity.
  - vm_compute. reflexivity.
Defined.

(** The identifier X123 upserted twice into the morning's catalogue. *)
Lemma upsert_twice_writes_once_witness :
  exists food_item created w1,
    FoodCacheService.get_or_create_food_item (env := offline) (x123 10) morning
    = (w1, Ok (food_item, created))
    /\ FoodCacheService.get_or_create_food_item (env := offline) (x123 10) w1
       = (w1, Ok (food_item, false))
    /\ FoodCacheService.with_fdc_id (FoodData.fdc_id (x123 10)) w1 = [food_item].
Proof.
  apply (@upsert_twice_writes_once offline (x123 10) morning).
  - exact offline_storage_sound.
  - exact morning_catalog_ok.
  - apply x123_plain. reflexivity.
Defined.

(** Energy tagged with grams, read into an empty dictionary. *)
Lemma read_nutrient_units_witness :
  FoodAPIService.read_nutrient (env := offline) nutrients_empty energy_in_grams
  = Ok (nutrients_set calories 5 nutrients_empty).
Proof.
  exact (@read_nutrient_units offline nutrients_empty energy_in_grams
           (JDict [("id", JInt 1008); ("unitName", JStr "g")]%string)
           (JInt 1008) (JFloat 5) "g" calories
           eq_refl eq_refl eq_refl eq_refl eq_refl).
Defined.

(** ** More on [save] and [delete] *)

Section ReplaceFacts.
Variable A : Type.
Variable key : A -> Z.

(** Rows after an UPDATE by key: the new row where a row had the key,
    every other row as it was. *)
Lemma In_map_replace (k : Z) (row : A) (rows : list A) (x : A) :
  In x (List.map (fun r => if (key r =? k)%Z then row else r) rows)
  <-> (x = row /\ exists r, In r rows /\ key r = k) \/ (In x rows /\ key x <> k).
Proof.
  induction rows as [|r rows IH]; simpl.
  - split; [tauto|]. intros [[_ (r & [] & _)]|[[] _]].
  - rewrite IH. destruct (Z.eqb_spec (key r) k) as [Hk|Hk]; split.
    + intros [<-|[[-> (r' & Hr' & Hk')]|[Hin Hne]]]; eauto 6.
    + intros [[-> (r' & [<-|Hr'] & Hk')]|[[<-|Hin] Hne]]; eauto 6. contradiction.
    + intros [<-|[[-> (r' & Hr' & Hk')]|[Hin Hne]]]; eauto 6.
    + intros [[-> (r' & [<-|Hr'] & Hk')]|[[<-|Hin] Hne]]; eauto 6. contradiction.
Qed.



End ReplaceFacts.

Section SaveFacts.
Context {env : Environment}.

(** What the write of the entry can leave behind. *)
Lemma save_entry_world self w :
  let w1 := fst (Orm.save_entry self w) in
  food_items w1 = food_items w
  /\ user_profiles w1 = user_profiles w
  /\ http_log w1 = http_log w
  /\ daily_intakes w1 = daily_intakes w
  /\ (w1 = w
      \/ (exists id,
            (FoodEntry.pk self = None \/ FoodEntry.pk self = Some id)
            /\ food_entries w1 = Orm.entry_row id self :: food_entries w)
      \/ (exists id,
            FoodEntry.pk self = Some id
            /\ food_entries w1
               = Orm.replace_entry (Orm.entry_row id self) (food_entries w))).
Proof.
  unfold Orm.save_entry, abind, ret.
  destruct (FoodEntry.pk self) as [id|]; [destruct (existsb _ (food_entries w))|];
    match goal with
    | |- context [Orm.execute ?s ?f w] =>
        destruct (execute_cases s f w) as [Hr|Hr]; rewrite Hr
    end; cbn; repeat (split; [reflexivity|]); eauto 7.
Qed.

(** What the write of the totals can leave behind. *)
Lemma save_intake_world self w :
  let w1 := fst (Orm.save_intake self w) in
  food_items w1 = food_items w
  /\ user_profiles w1 = user_profiles w
  /\ http_log w1 = http_log w
  /\ food_entries w1 = food_entries w
  /\ next_pk w1 = next_pk w
  /\ (w1 = w
      \/ daily_intakes w1 = self :: daily_intakes w
      \/ daily_intakes w1 = Orm.replace_intake self (daily_intakes w)).
Proof.
  unfold Orm.save_intake.
  destruct (existsb _ (daily_intakes w));
    match goal with
    | |- context [Orm.execute ?s ?f w] =>
        destruct (execute_cases s f w) as [Hr|Hr]; rewrite Hr
    end; cbn; repeat (split; [reflexivity|]); auto.
Qed.

(** The world [save] leaves is the one its second write leaves, or the
    one its first write leaves when that one failed. *)
Lemma save_world self w :
  fst (Models.save self w)
  = let w1 := fst (Orm.save_entry (computed self) w) in
    match snd (Orm.save_entry (computed self) w) with
    | Ok saved =>
        fst (Orm.save_intake
               (Models.with_totals
                  (Models.entries_protein (FoodEntry.daily_intake saved) w1)
                  (Models.entries_calories (FoodEntry.daily_intake saved) w1)
                  (FoodEntry.daily_intake saved)) w1)
    | Raise _ => w1
    end.
Proof.
  rewrite save_unfold. cbv zeta. fold (computed self).
  destruct (Orm.save_entry (computed self) w) as [w1 [saved|e]]; [|reflexivity].
  cbn [fst snd].
  destruct (Orm.save_intake _ w1) as [w2 [[]|e]]; reflexivity.
Qed.

Lemma save_entry_keeps_day self w saved :
  snd (Orm.save_entry self w) = Ok saved ->
  FoodEntry.daily_intake saved = FoodEntry.daily_intake self.
Proof.
  unfold Orm.save_entry, abind, ret.
  destruct (FoodEntry.pk self) as [id|]; [destruct (existsb _ (food_entries w))|];
    match goal with
    | |- context [Orm.execute ?s ?f w] =>
        destruct (execute_cases s f w) as [Hr|Hr]; rewrite Hr
    end; cbn; intros Heq; inversion Heq; reflexivity.
Qed.

End SaveFacts.

(** X4. [save] writes to its own rows only, whatever the storage layer
    does: the catalogue, the profiles and the requests sent are as
    before; a stored [DailyIntake] of another day is neither added,
    removed nor changed; a stored entry stays unless it is the one saved
    again, and the only row that can appear is the row of the entry with
    its computed amounts. *)
Theorem save_touches_only_its_rows {env : Environment} (self : FoodEntry.t) (w : world) :
  let w' := fst (Models.save self w) in
  food_items w' = food_items w
  /\ user_profiles w' = user_profiles w
  /\ http_log w' = http_log w
  /\ (forall d,
        DailyIntake.pk d <> DailyIntake.pk (FoodEntry.daily_intake self) ->
        (In d (daily_intakes w') <-> In d (daily_intakes w)))
  /\ (forall row,
        In row (food_entries w) ->
        In row (food_entries w') \/ FoodEntry.pk self = Some (FoodEntryRow.id row))
  /\ (forall row,
        In row (food_entries w') ->
        In row (food_entries w) \/ exists id, row = Orm.entry_row id (computed self)).
Proof.
  intros w'. subst w'. rewrite save_world. cbv zeta.
  pose proof (save_entry_world (computed self) w) as Hentry. cbv zeta in Hentry.
  destruct Hentry as (Hfi & Hup & Hlog & Hdi & Hrows).
  assert (Hentries :
            (forall row, In row (food_entries w) ->
               In row (food_entries (fst (Orm.save_entry (computed self) w)))
               \/ FoodEntry.pk self = Some (FoodEntryRow.id row))
            /\ (forall row,
                  In row (food_entries (fst (Orm.save_entry (computed self) w))) ->
                  In row (food_entries w)
                  \/ exists id, row = Orm.entry_row id (computed self))).
  { destruct Hrows as [->|[(id & _ & ->)|(id & Hpk & ->)]].
    - split; auto.
    - split; intros row; simpl; [auto|]. intros [<-|Hin]; eauto.
    - unfold Orm.replace_entry. simpl in Hpk. split; intros row Hin.
      + destruct (Z.eq_dec (FoodEntryRow.id row) id) as [->|Hne]; [now right|].
        left. apply In_map_replace. right. auto.
      + apply In_map_replace in Hin as [[-> _]|[Hin _]]; eauto. }
  destruct (snd (Orm.save_entry (computed self) w)) as [saved|e] eqn:Hsaved.
  - pose proof (save_entry_keeps_day _ _ Hsaved) as Hday. simpl in Hday.
    match goal with
    | |- context [Orm.save_intake ?d ?w1] =>
        pose proof (save_intake_world d w1) as Hintake; cbv zeta in Hintake;
        set (totals := d) in *
    end.
    destruct Hintake as (Hfi2 & Hup2 & Hlog2 & Hrows2 & _ & Hdays).
    rewrite Hfi2, Hup2, Hlog2, Hrows2.
    repeat (split; [congruence|]). split; [|exact Hentries].
    intros d Hother.
    assert (Hne : DailyIntake.pk d <> DailyIntake.pk totals)
      by (subst totals; simpl; now rewrite Hday).
    destruct Hdays as [->|[->| ->]]; rewrite ?Hdi; try tauto.
    + simpl. split; [intros [<-|Hin]; [contradiction|exact Hin]|auto].
    + unfold Orm.replace_intake. rewrite In_map_replace. split.
      * intros [[-> _]|[Hin _]]; [contradiction|exact Hin].
      * auto.
  - repeat (split; [assumption|]). split; [|exact Hentries].
    intros d _. now rewrite Hdi.
Qed.

Section SoundStorage.
Context {env : Environment}.
Hypothesis sound : storage_sound.

(** The write of the entry when the storage layer works. *)
Lemma save_entry_sound self w :
  Orm.save_entry self w =
  match FoodEntry.pk self with
  | None =>
      (with_journal (INSERT api_foodentry (next_pk w) :: journal w)
         (with_next_pk (next_pk w + 1)
            (with_food_entries (Orm.entry_row (next_pk w) self :: food_entries w) w)),
       Ok (Orm.with_pk (next_pk w) self))
  | Some id =>
      if existsb (fun r => (FoodEntryRow.id r =? id)%Z) (food_entries w)
      then (with_journal (UPDATE api_foodentry id :: journal w)
              (with_food_entries
                 (Orm.replace_entry (Orm.entry_row id self) (food_entries w)) w),
            Ok self)
      else (with_journal (INSERT api_foodentry id :: journal w)
              (with_food_entries (Orm.entry_row id self :: food_entries w) w),
            Ok self)
  end.
Proof.
  unfold Orm.save_entry, abind, ret.
  destruct (FoodEntry.pk self) as [id|]; [destruct (existsb _ (food_entries w))|];
    rewrite execute_accepted by apply sound; reflexivity.
Qed.

(** The write of the totals when the storage layer works. *)
Lemma save_intake_sound self w :
  Orm.save_intake self w =
  if existsb (fun r => (DailyIntake.pk r =? DailyIntake.pk self)%Z) (daily_intakes w)
  then (with_journal (UPDATE api_dailyintake (DailyIntake.pk self) :: journal w)
          (with_daily_intakes (Orm.replace_intake self (daily_intakes w)) w),
        Ok tt)
  else (with_journal (INSERT api_dailyintake (DailyIntake.pk self) :: journal w)
          (with_daily_intakes (self :: daily_intakes w) w),
        Ok tt).
Proof.
  unfold Orm.save_intake.
  destruct (existsb _ (daily_intakes w)); rewrite execute_accepted by apply sound;
    reflexivity.
Qed.


End SoundStorage.

Section SaveAgain.
Context {env : Environment}.
Hypothesis sound : storage_sound.




End SaveAgain.

(** X7. [delete] on an entry without a key raises [ValueError] and
    changes nothing. On an entry with a key it removes the rows with that
    key and no other row, so that the entries of every day are the ones
    from before without them; the stored [DailyIntake] rows, totals
    included, are never written. When the storage layer fails the
    statement, nothing changes. *)
Theorem delete_removes_only_the_row {env : Environment} (self : FoodEntry.t) (w : world) :
  match FoodEntry.pk self with
  | None => Models.delete self w = (w, Raise ValueError)
  | Some id =>
      let w' := fst (Models.delete self w) in
      daily_intakes w' = daily_intakes w
      /\ food_items w' = food_items w
      /\ next_pk w' = next_pk w
      /\ match snd (Models.delete self w) with
         | Ok _ =>
             journal w' = DELETE api_foodentry id :: journal w
             /\ (forall row,
                   In row (food_entries w')
                   <-> In row (food_entries w) /\ FoodEntryRow.id row <> id)
             /\ (forall day,
                   Orm.entries_all day w'
                   = List.filter (fun r => negb (FoodEntryRow.id r =? id)%Z)
                       (Orm.entries_all day w))
         | Raise e => e = DatabaseError /\ w' = w
         end
  end.
Proof.
  unfold Models.delete, Orm.delete_entry, throw.
  destruct (FoodEntry.pk self) as [id|]; [|reflexivity].
  match goal with
  | |- context [Orm.execute ?s ?f w] =>
      destruct (execute_cases s f w) as [Hr|Hr]; rewrite Hr
  end; cbn.
  - auto.
  - repeat (split; [reflexivity|]). split.
    + intros row. rewrite filter_In.
      destruct (Z.eqb_spec (FoodEntryRow.id row) id); simpl; intuition congruence.
    + intros day. unfold Orm.entries_all. cbn. clear Hr.
      induction (food_entries w) as [|r rows IH]; simpl; [reflexivity|].
      destruct (FoodEntryRow.id r =? id)%Z eqn:Hid; simpl;
        destruct (FoodEntryRow.daily_intake_id r =? DailyIntake.pk day)%Z; simpl;
        rewrite ?Hid; simpl; rewrite IH; reflexivity.
Qed.

(** ** More on the upsert and the caching loop *)

Section CatalogFacts.
Context {env : Environment}.

(** Under the constraints of the table an identifier has one row at
    most. *)
Lemma with_fdc_id_single w item fdc_id :
  catalog_ok w ->
  In item (food_items w) ->
  FoodItem.fdc_id item = fdc_id ->
  FoodCacheService.with_fdc_id fdc_id w = [item].
Proof.
  intros Hok Hin Hid.
  destruct (@catalog_split w item Hok Hin) as (before & after & Hrows & Hothers).
  unfold FoodCacheService.with_fdc_id. rewrite Hrows.
  apply filter_fdc_id_around; [exact Hid|].
  intros r Hr. rewrite <- Hid. now apply Hothers.
Qed.

Lemma with_fdc_id_In w item fdc_id :
  In item (FoodCacheService.with_fdc_id fdc_id w) ->
  In item (food_items w) /\ FoodItem.fdc_id item = fdc_id.
Proof.
  unfold FoodCacheService.with_fdc_id. rewrite filter_In.
  intros [Hin Heq]. split; [exact Hin|now apply String.eqb_eq].
Qed.

Lemma not_catalogued_iff w fdc_id :
  FoodCacheService.with_fdc_id fdc_id w = [] <-> ~ catalogued fdc_id w.
Proof.
  split.
  - intros Hnone (item & Hin & Hid).
    assert (Hfound : In item (FoodCacheService.with_fdc_id fdc_id w)).
    { apply filter_In. split; [exact Hin|now apply String.eqb_eq]. }
    rewrite Hnone in Hfound. destruct Hfound.
  - intros Hnot.
    destruct (FoodCacheService.with_fdc_id fdc_id w) as [|item rest] eqn:Hfound;
      [reflexivity|].
    exfalso. apply Hnot. exists item. apply with_fdc_id_In.
    rewrite Hfound. now left.
Qed.

(** When the diff loop reports no update, no field differed. *)
Lemma update_fields_unchanged food_data food_item :
  snd (FoodCacheService.update_fields food_data food_item) = false ->
  no_difference food_item food_data.
Proof.
  rewrite update_fields_explicit. cbv zeta. cbn [snd]. intros Hnone.
  repeat (apply orb_false_elim in Hnone; destruct Hnone as [Hnone ?]).
  intros field Hfield. destruct field; try discriminate Hfield; assumption.
Qed.

(** The three ways [get_or_create_food_item] can end in a catalogue
    under its constraints: nothing written (the statement failed, or the
    stored item showed no difference), a row appended, or one row
    replaced in place. *)
Lemma get_or_create_outcome food_data w :
  catalog_ok w ->
  let out := FoodCacheService.get_or_create_food_item food_data w in
  (fst out = w
   /\ (snd out = Raise DatabaseError
       \/ exists old,
            In old (food_items w)
            /\ FoodItem.fdc_id old = FoodData.fdc_id food_data
            /\ no_difference old food_data
            /\ snd out = Ok (old, false)))
  \/ (~ catalogued (FoodData.fdc_id food_data) w
      /\ fst out
         = with_journal (INSERT api_fooditem (next_pk w) :: journal w)
             (with_next_pk (next_pk w + 1)
                (with_food_items
                   (food_items w
                    ++ [FoodCacheService.new_food_item (next_pk w) food_data]) w))
      /\ snd out = Ok (FoodCacheService.new_food_item (next_pk w) food_data, true))
  \/ (exists before old after item,
        food_items w = before ++ old :: after
        /\ FoodItem.fdc_id old = FoodData.fdc_id food_data
        /\ FoodItem.pk item = FoodItem.pk old
        /\ FoodItem.fdc_id item = FoodItem.fdc_id old
        /\ carries item food_data
        /\ (forall r, In r (before ++ after) ->
              FoodItem.pk r <> FoodItem.pk old
              /\ FoodItem.fdc_id r <> FoodItem.fdc_id old)
        /\ fst out
           = with_journal (UPDATE api_fooditem (FoodItem.pk old) :: journal w)
               (with_food_items (before ++ item :: after) w)
        /\ snd out = Ok (item, false)).
Proof.
  intros Hok. unfold FoodCacheService.get_or_create_food_item.
  destruct (FoodCacheService.with_fdc_id (FoodData.fdc_id food_data) w)
    as [|old [|other rest]] eqn:Hfound.
  - unfold abind, ret.
    match goal with
    | |- context [Orm.execute ?s ?f w] =>
        destruct (execute_cases s f w) as [Hr|Hr]; rewrite Hr
    end; cbn.
    + left. auto.
    + right. left. split; [now apply not_catalogued_iff|]. auto.
  - assert (Hold : In old (food_items w)
                   /\ FoodItem.fdc_id old = FoodData.fdc_id food_data)
      by (apply with_fdc_id_In; rewrite Hfound; now left).
    destruct Hold as [Hin Hid].
    destruct (@catalog_split w old Hok Hin) as (before & after & Hrows & Hothers).
    pose proof (update_fields_spec food_data old) as Hspec. cbv zeta in Hspec.
    pose proof (update_fields_unchanged food_data old) as Hunchanged.
    destruct (FoodCacheService.update_fields food_data old) as [item updated].
    cbn [fst snd] in Hspec, Hunchanged.
    destruct Hspec as (Hpk & Hfdc & Hcarries & Hsame & _ & _).
    destruct updated.
    + unfold FoodCacheService.save_food_item, abind, ret.
      match goal with
      | |- context [Orm.execute ?s ?f w] =>
          destruct (execute_cases s f w) as [Hr|Hr]; rewrite Hr
      end; cbn.
      * left. auto.
      * right. right. exists before, old, after, item.
        repeat (split; [assumption|]).
        rewrite Hrows, (@replace_food_item_around before old item after Hpk), Hpk;
          [auto|].
        intros r Hr'. now apply Hothers.
    + specialize (Hsame eq_refl). subst item. cbn. left. split; [reflexivity|].
      right. exists old. auto.
  - exfalso.
    assert (Hold : In old (food_items w)
                   /\ FoodItem.fdc_id old = FoodData.fdc_id food_data)
      by (apply with_fdc_id_In; rewrite Hfound; now left).
    destruct Hold as [Hin Hid].
    rewrite (@with_fdc_id_single w old _ Hok Hin Hid) in Hfound. discriminate.
Qed.

(** One call of [get_or_create_food_item] keeps the constraints of the
    catalogue, every row's key and identifier, and the other tables. *)
Lemma get_or_create_keeps food_data w :
  catalog_ok w ->
  let w' := fst (FoodCacheService.get_or_create_food_item food_data w) in
  catalog_ok w'
  /\ (forall x, In x (food_items w) ->
        exists x', In x' (food_items w')
                   /\ FoodItem.pk x' = FoodItem.pk x
                   /\ FoodItem.fdc_id x' = FoodItem.fdc_id x)
  /\ (forall x, FoodItem.fdc_id x <> FoodData.fdc_id food_data ->
        (In x (food_items w') <-> In x (food_items w)))
  /\ (List.length (food_items w) <= List.length (food_items w')
      <= S (List.length (food_items w)))%nat
  /\ daily_intakes w' = daily_intakes w
  /\ food_entries w' = food_entries w
  /\ user_profiles w' = user_profiles w
  /\ http_log w' = http_log w.
Proof.
  intros Hok.
  destruct (get_or_create_outcome food_data Hok)
    as [[-> _]|[(Hnot & -> & _)|(before & old & after & item & Hrows & Hid & Hpk & Hfdc
                                 & _ & Hothers & -> & _)]]; cbv zeta.
  - split; [exact Hok|]. split; [eauto|]. split; [tauto|]. auto 10.
  - split; [apply create_keeps_catalog_ok; [exact Hok|now apply not_catalogued_iff]|].
    cbn. split; [|split; [|split]].
    + intros x Hx. exists x. split; [apply in_or_app; auto|auto].
    + intros x Hx. rewrite in_app_iff. simpl. split; [|auto].
      intros [Hin|[<-|[]]]; [exact Hin|]. now destruct Hx.
    + rewrite length_app. simpl. lia.
    + auto.
  - cbn. split; [|split; [|split; [|split]]].
    + destruct Hok as (Hk & Hi & Hfresh). unfold catalog_ok. cbn.
      rewrite Hrows in Hk, Hi. rewrite !map_app in *. cbn [List.map] in *.
      rewrite Hpk, Hfdc. repeat split; auto.
      intros r Hr. apply in_app_or in Hr as [Hr|[<-|Hr]].
      * apply Hfresh. rewrite Hrows. apply in_or_app. auto.
      * rewrite Hpk. apply Hfresh. rewrite Hrows. apply in_or_app. simpl. auto.
      * apply Hfresh. rewrite Hrows. apply in_or_app. simpl. auto.
    + intros x Hx. rewrite Hrows in Hx. apply in_app_or in Hx as [Hx|[<-|Hx]].
      * exists x. split; [apply in_or_app; auto|auto].
      * exists item. split; [apply in_or_app; simpl; auto|auto].
      * exists x. split; [apply in_or_app; simpl; auto|auto].
    + intros x Hx. rewrite Hrows, !in_app_iff. simpl. split.
      * intros [Hin|[<-|Hin]]; auto. exfalso. apply Hx. congruence.
      * intros [Hin|[<-|Hin]]; auto. exfalso. apply Hx. congruence.
    + rewrite Hrows, !length_app. simpl. lia.
    + auto.
Qed.

(** With a storage layer that works, the identifier of the dictionary is
    catalogued after the call. *)
Lemma get_or_create_catalogues food_data w :
  storage_sound ->
  catalog_ok w ->
  catalogued (FoodData.fdc_id food_data)
    (fst (FoodCacheService.get_or_create_food_item food_data w)).
Proof.
  intros Hsound Hok.
  destruct (FoodCacheService.with_fdc_id (FoodData.fdc_id food_data) w)
    as [|old rest] eqn:Hfound.
  - unfold FoodCacheService.get_or_create_food_item. rewrite Hfound.
    unfold abind, ret. rewrite execute_accepted by apply Hsound. cbn.
    eexists. split; [apply in_or_app; right; now left|reflexivity].
  - assert (Hold : In old (food_items w)
                   /\ FoodItem.fdc_id old = FoodData.fdc_id food_data)
      by (apply with_fdc_id_In; rewrite Hfound; now left).
    destruct Hold as [Hin Hid].
    destruct (get_or_create_keeps food_data Hok) as (_ & Hpersist & _).
    destruct (Hpersist old Hin) as (x' & Hin' & _ & Hfdc).
    exists x'. split; [exact Hin'|congruence].
Qed.

End CatalogFacts.

(** X8. Upserting a dictionary whose identifier is not catalogued, with
    a storage layer that works: the call returns a new item with
    [created = True], stored under the next key at the end of the
    catalogue and carrying the fields of the dictionary; the identifier
    then has exactly that one row, and one INSERT was issued. *)
Theorem upsert_creates {env : Environment} (food_data : FoodData.t) (w : world) :
  storage_sound ->
  ~ catalogued (FoodData.fdc_id food_data) w ->
  exists food_item w',
    FoodCacheService.get_or_create_food_item food_data w = (w', Ok (food_item, true))
    /\ food_items w' = food_items w ++ [food_item]
    /\ FoodItem.pk food_item = next_pk w
    /\ next_pk w' = (next_pk w + 1)%Z
    /\ FoodItem.fdc_id food_item = FoodData.fdc_id food_data
    /\ carries food_item food_data
    /\ FoodCacheService.with_fdc_id (FoodData.fdc_id food_data) w' = [food_item]
    /\ journal w' = INSERT api_fooditem (next_pk w) :: journal w.
Proof.
  intros Hsound Hnot. apply not_catalogued_iff in Hnot.
  exists (FoodCacheService.new_food_item (next_pk w) food_data). eexists.
  unfold FoodCacheService.get_or_create_food_item. rewrite Hnot.
  unfold abind, ret. rewrite execute_accepted by apply Hsound.
  split; [reflexivity|]. cbn. repeat (split; [reflexivity|]).
  split; [|split; [|reflexivity]].
  - unfold carries, same_number. simpl. auto 10.
  - unfold FoodCacheService.with_fdc_id in *. cbn. rewrite filter_app, Hnot. simpl.
    now rewrite String.eqb_refl.
Qed.

(** The identifier X123 arrives in the morning's catalogue. *)
Lemma upsert_creates_witness :
  exists food_item w',
    FoodCacheService.get_or_create_food_item (env := offline) (x123 10) morning
    = (w', Ok (food_item, true))
    /\ food_items w' = [chicken; rice; food_item]
    /\ FoodItem.pk food_item = 4%Z.
Proof.
  destruct (@upsert_creates offline (x123 10) morning offline_storage_sound)
    as (food_item & w' & Hcall & Hrows & Hpk & _).
  - intros (item & [<-|[<-|[]]] & Hid); discriminate Hid.
  - exists food_item, w'. auto.
Defined.

(** X9. In a catalogue under its constraints (primary key, unique
    identifier, keys below the next key), [get_or_create_food_item]
    keeps the constraints whatever the storage layer does. It never
    raises [MultipleObjectsReturned]: the only exception is the
    [DatabaseError] of its one statement, and then nothing was written. *)
Theorem upsert_keeps_catalog {env : Environment} (food_data : FoodData.t) (w : world) :
  catalog_ok w ->
  let out := FoodCacheService.get_or_create_food_item food_data w in
  catalog_ok (fst out)
  /\ (forall e, snd out = Raise e -> e = DatabaseError /\ fst out = w)
  /\ (forall food_item created,
        snd out = Ok (food_item, created) ->
        In food_item (food_items (fst out))
        /\ FoodItem.fdc_id food_item = FoodData.fdc_id food_data
        /\ FoodCacheService.with_fdc_id (FoodData.fdc_id food_data) (fst out) = [food_item]).
Proof.
  intros Hok out.
  assert (Hok' : catalog_ok (fst out)) by apply (get_or_create_keeps food_data Hok).
  split; [exact Hok'|].
  assert (Hstored : forall food_item created,
             snd out = Ok (food_item, created) ->
             In food_item (food_items (fst out))
             /\ FoodItem.fdc_id food_item = FoodData.fdc_id food_data).
  { subst out.
    destruct (get_or_create_outcome food_data Hok)
      as [[-> [->|(old & Hin & Hid & _ & ->)]]
         |[(_ & -> & ->)
          |(before & old & after & item & _ & Hid & _ & Hfdc & _ & _ & -> & ->)]];
      intros food_item created Heq; inversion Heq; subst; cbn.
    - auto.
    - split; [apply in_or_app; right; now left|reflexivity].
    - split; [apply in_or_app; right; now left|congruence]. }
  split.
  - subst out.
    destruct (get_or_create_outcome food_data Hok)
      as [[-> [->|(old & _ & _ & _ & ->)]]
         |[(_ & _ & ->)|(before & old & after & item & _ & _ & _ & _ & _ & _ & _ & ->)]];
      intros e Heq; inversion Heq; auto.
  - intros food_item created Heq. destruct (Hstored _ _ Heq) as [Hin Hid].
    repeat split; auto. now apply with_fdc_id_single.
Qed.

(** The second upsert of the scenario keeps the constraints. *)
Lemma upsert_keeps_catalog_witness :
  catalog_ok
    (fst (FoodCacheService.get_or_create_food_item (env := offline) (x123 15) with_x123)).
Proof.
  exact (proj1 (@upsert_keeps_catalog offline (x123 15) with_x123 with_x123_catalog_ok)).
Defined.

(** X10. [get_or_create_food_item] touches the row of its identifier
    only: a row with another identifier is in the catalogue afterwards
    exactly when it was there before; no row is removed, every row keeps
    its key and identifier, and at most one row is added; the days, the
    entries, the profiles and the requests sent are as before. *)
Theorem upsert_touches_only_its_row {env : Environment}
  (food_data : FoodData.t) (w : world) :
  catalog_ok w ->
  let w' := fst (FoodCacheService.get_or_create_food_item food_data w) in
  (forall x, FoodItem.fdc_id x <> FoodData.fdc_id food_data ->
     (In x (food_items w') <-> In x (food_items w)))
  /\ (forall x, In x (food_items w) ->
        exists x', In x' (food_items w')
                   /\ FoodItem.pk x' = FoodItem.pk x
                   /\ FoodItem.fdc_id x' = FoodItem.fdc_id x)
  /\ (List.length (food_items w) <= List.length (food_items w')
      <= S (List.length (food_items w)))%nat
  /\ daily_intakes w' = daily_intakes w
  /\ food_entries w' = food_entries w
  /\ user_profiles w' = user_profiles w
  /\ http_log w' = http_log w.
Proof.
  intros Hok w'.
  destruct (get_or_create_keeps food_data Hok)
    as (_ & Hpersist & Hframe & Hlen & Hd & He & Hu & Hl).
  auto 10.
Qed.

(** The second upsert of the scenario leaves the chicken where it is. *)
Lemma upsert_touches_only_its_row_witness :
  In chicken
    (food_items
       (fst (FoodCacheService.get_or_create_food_item (env := offline) (x123 15) with_x123))).
Proof.
  apply (proj1 (@upsert_touches_only_its_row offline (x123 15) with_x123
                  with_x123_catalog_ok)).
  - discriminate.
  - vm_compute. auto.
Defined.

Section CacheFacts.
Context {env : Environment}.

Lemma catalogued_kept food_data w fdc_id :
  catalog_ok w ->
  catalogued fdc_id w ->
  catalogued fdc_id (fst (FoodCacheService.get_or_create_food_item food_data w)).
Proof.
  intros Hok (x & Hin & Hid).
  destruct (get_or_create_keeps food_data Hok) as (_ & Hpersist & _).
  destruct (Hpersist x Hin) as (x' & Hin' & _ & Hfdc).
  exists x'. split; [exact Hin'|congruence].
Qed.

(** The caching loop keeps what one call keeps. *)
Lemma cache_foods_keeps api_results : forall w,
  catalog_ok w ->
  let w' := FoodSearchView.cache_foods api_results w in
  catalog_ok w'
  /\ (forall fdc_id, catalogued fdc_id w -> catalogued fdc_id w')
  /\ (forall x, In x (food_items w) ->
        exists x', In x' (food_items w')
                   /\ FoodItem.pk x' = FoodItem.pk x
                   /\ FoodItem.fdc_id x' = FoodItem.fdc_id x)
  /\ (forall x,
        (forall food_data, In food_data api_results ->
                           FoodItem.fdc_id x <> FoodData.fdc_id food_data) ->
        (In x (food_items w') <-> In x (food_items w)))
  /\ (List.length (food_items w) <= List.length (food_items w')
      <= List.length (food_items w) + List.length api_results)%nat
  /\ daily_intakes w' = daily_intakes w
  /\ food_entries w' = food_entries w
  /\ user_profiles w' = user_profiles w
  /\ http_log w' = http_log w.
Proof.
  induction api_results as [|food_data rest IH]; intros w Hok; cbn.
  - split; [exact Hok|]. split; [auto|]. split; [eauto|]. split; [tauto|].
    split; [lia|auto].
  - destruct (get_or_create_keeps food_data Hok)
      as (Hok1 & Hpersist1 & Hframe1 & Hlen1 & Hd1 & He1 & Hu1 & Hl1).
    cbv zeta in *.
    set (w1 := fst (FoodCacheService.get_or_create_food_item food_data w)) in *.
    destruct (IH w1 Hok1) as (Hok2 & Hcat2 & Hpersist2 & Hframe2 & Hlen2 & Hd2 & He2
                              & Hu2 & Hl2).
    cbv zeta in *.
    split; [exact Hok2|]. split; [|split; [|split; [|split]]].
    + intros k Hk. apply Hcat2. now apply catalogued_kept.
    + intros x Hx. destruct (Hpersist1 x Hx) as (x1 & Hin1 & Hpk1 & Hfdc1).
      destruct (Hpersist2 x1 Hin1) as (x2 & Hin2 & Hpk2 & Hfdc2).
      exists x2. split; [exact Hin2|split; congruence].
    + intros x Hx. rewrite Hframe2 by auto. apply Hframe1. auto.
    + lia.
    + repeat split; congruence.
Qed.

(** With a storage layer that works, the loop catalogues the identifier
    of every result. *)
Lemma cache_foods_catalogues api_results food_data : forall w,
  storage_sound ->
  catalog_ok w ->
  In food_data api_results ->
  catalogued (FoodData.fdc_id food_data) (FoodSearchView.cache_foods api_results w).
Proof.
  induction api_results as [|first rest IH]; intros w Hsound Hok Hin; [destruct Hin|].
  cbn. destruct (get_or_create_keeps first Hok) as (Hok1 & _).
  destruct Hin as [->|Hin].
  - apply (cache_foods_keeps rest Hok1). now apply get_or_create_catalogues.
  - now apply IH.
Qed.

End CacheFacts.

(** X11. The caching loop of the view merges without duplicating or
    losing rows. From a catalogue under its constraints it leaves one
    under its constraints, whatever the storage layer does; every row
    keeps its key and identifier, rows whose identifier is not among the
    results are untouched, and at most one row per result is added. With
    a storage layer that works, the identifier of every result has
    exactly one row afterwards. The loop writes to no other table. *)
Theorem cache_foods_merges {env : Environment}
  (api_results : list FoodData.t) (w : world) :
  catalog_ok w ->
  let w' := FoodSearchView.cache_foods api_results w in
  catalog_ok w'
  /\ (forall x, In x (food_items w) ->
        exists x', In x' (food_items w')
                   /\ FoodItem.pk x' = FoodItem.pk x
                   /\ FoodItem.fdc_id x' = FoodItem.fdc_id x)
  /\ (forall x,
        (forall food_data, In food_data api_results ->
                           FoodItem.fdc_id x <> FoodData.fdc_id food_data) ->
        (In x (food_items w') <-> In x (food_items w)))
  /\ (List.length (food_items w) <= List.length (food_items w')
      <= List.length (food_items w) + List.length api_results)%nat
  /\ (storage_sound ->
      forall food_data, In food_data api_results ->
        exists food_item,
          FoodCacheService.with_fdc_id (FoodData.fdc_id food_data) w' = [food_item])
  /\ daily_intakes w' = daily_intakes w
  /\ food_entries w' = food_entries w.
Proof.
  intros Hok w'.
  destruct (cache_foods_keeps api_results Hok)
    as (Hok' & _ & Hpersist & Hframe & Hlen & Hd & He & _).
  fold w' in Hok', Hpersist, Hframe, Hlen, Hd, He.
  repeat (split; [assumption|]). split; [|auto].
  intros Hsound food_data Hin.
  assert (Hcat : catalogued (FoodData.fdc_id food_data) w')
    by (subst w'; now apply cache_foods_catalogues).
  destruct Hcat as (item & Hitem & Hid). exists item.
  now apply with_fdc_id_single.
Qed.

(** The identifier X123 cached twice, with 10 g and then with 15 g, in
    the morning's catalogue. *)
Lemma cache_foods_merges_witness :
  catalog_ok (FoodSearchView.cache_foods (env := offline) [x123 10; x123 15] morning)
  /\ exists food_item,
       FoodCacheService.with_fdc_id "X123"
         (FoodSearchView.cache_foods (env := offline) [x123 10; x123 15] morning)
       = [food_item].
Proof.
  destruct (@cache_foods_merges offline [x123 10; x123 15] morning morning_catalog_ok)
    as (Hok & _ & _ & _ & Hone & _).
  split; [exact Hok|].
  apply (Hone offline_storage_sound (x123 15)). simpl. auto.
Defined.

(** ** More on the search view *)

Section OrderFacts.

Lemma In_insert_by_name row rows x :
  In x (FoodSearchView.insert_by_name row rows) <-> x = row \/ In x rows.
Proof.
  induction rows as [|r rows IH]; simpl; [intuition congruence|].
  destruct (String.leb (FoodItem.name row) (FoodItem.name r)); simpl;
    rewrite ?IH; intuition congruence.
Qed.

Lemma In_order_by_name rows x :
  In x (FoodSearchView.order_by_name rows) <-> In x rows.
Proof.
  induction rows as [|r rows IH]; simpl; [tauto|].
  rewrite In_insert_by_name, IH. intuition congruence.
Qed.

Lemma length_insert_by_name row rows :
  List.length (FoodSearchView.insert_by_name row rows) = S (List.length rows).
Proof.
  induction rows as [|r rows IH]; simpl; [reflexivity|].
  destruct (String.leb (FoodItem.name row) (FoodItem.name r)); simpl; auto.
Qed.

Lemma length_order_by_name rows :
  List.length (FoodSearchView.order_by_name rows) = List.length rows.
Proof.
  induction rows as [|r rows IH]; simpl; [reflexivity|].
  now rewrite length_insert_by_name, IH.
Qed.

Lemma insert_by_name_sorted row rows :
  Sorted by_name rows -> Sorted by_name (FoodSearchView.insert_by_name row rows).
Proof.
  induction 1 as [|r rows Hrows IH Hhd]; simpl; [auto|].
  destruct (String.leb (FoodItem.name row) (FoodItem.name r)) eqn:Hle.
  - constructor; [constructor; assumption|]. constructor. exact Hle.
  - constructor; [exact IH|].
    assert (Hrev : by_name r row).
    { unfold by_name.
      destruct (String.leb_total (FoodItem.name row) (FoodItem.name r)); congruence. }
    destruct Hhd as [|next rest Hnext]; simpl; [auto|].
    destruct (String.leb (FoodItem.name row) (FoodItem.name next)); auto.
Qed.

Lemma order_by_name_sorted rows : Sorted by_name (FoodSearchView.order_by_name rows).
Proof.
  induction rows as [|r rows IH]; simpl; [constructor|].
  now apply insert_by_name_sorted.
Qed.

Lemma firstn_sorted {A : Type} (R : A -> A -> Prop) (n : nat) (l : list A) :
  Sorted R l -> Sorted R (List.firstn n l).
Proof.
  intros Hl. revert n. induction Hl as [|x l Hl IH Hhd]; intros [|n]; simpl; auto.
  constructor; [apply IH|].
  destruct Hhd; destruct n; simpl; auto.
Qed.

Lemma firstn_subset {A : Type} (n : nat) (l : list A) (x : A) :
  In x (List.firstn n l) -> In x l.
Proof.
  revert l. induction n as [|n IH]; intros [|y l]; simpl; try tauto.
  intros [<-|Hin]; auto.
Qed.

End OrderFacts.

(** X12. What [get_queryset] returns: at most 20 items, each a row of
    the catalogue as the call leaves it whose name contains the query
    (case-insensitively), in the order of the names. When fewer than 20
    come back for a query of two characters or more, they are all the
    matching rows. *)
Theorem get_queryset_results {env : Environment} (query : string) (w : world) :
  let out := FoodSearchView.get_queryset query w in
  (List.length (snd out) <= 20)%nat
  /\ Forall (fun r => In r (food_items (fst out))
                      /\ FoodSearchView.icontains query (FoodItem.name r) = true)
       (snd out)
  /\ Sorted by_name (snd out)
  /\ ((2 <= Str.len query)%Z ->
      (List.length (snd out) < 20)%nat ->
      forall r, In r (food_items (fst out)) ->
                FoodSearchView.icontains query (FoodItem.name r) = true ->
                In r (snd out)).
Proof.
  unfold FoodSearchView.get_queryset.
  destruct (Z.ltb_spec (Str.len query) 2) as [Hshort|Hlong].
  - cbn. split; [lia|]. split; [constructor|]. split; [constructor|]. lia.
  - cbv zeta.
    set (w' := if (Z.of_nat _ <? 5)%Z then _ else w).
    cbn [fst snd].
    split; [apply firstn_le_length|]. split; [|split].
    + apply Forall_forall. intros r Hr. apply firstn_subset in Hr.
      unfold FoodSearchView.filter_name_icontains in Hr.
      apply In_order_by_name, filter_In in Hr. exact Hr.
    + apply firstn_sorted, order_by_name_sorted.
    + intros _ Hfew r Hr Hmatch.
      rewrite length_firstn in Hfew.
      rewrite firstn_all2 by lia.
      unfold FoodSearchView.filter_name_icontains.
      apply In_order_by_name, filter_In. auto.
Qed.

(** The morning's catalogue searched for ic: the rice is among the
    results. *)
Lemma get_queryset_results_witness :
  In rice (snd (FoodSearchView.get_queryset (env := offline) "ic" morning)).
Proof.
  apply (proj2 (proj2 (proj2 (@get_queryset_results offline "ic" morning)))).
  - vm_compute. discriminate.
  - vm_compute. lia.
  - simpl. auto.
  - reflexivity.
Defined.

(** X13. What [get_queryset] does to the world, from a catalogue under
    its constraints and whatever the provider and the storage layer do:
    the catalogue stays under its constraints and loses no row, every
    row keeps its key and identifier; the days, the entries and the
    profiles are never written; at most one request is sent, and it asks
    for 10 results. With five local matches or more the world is left
    exactly as it was: no request and no write. *)
Theorem get_queryset_effects {env : Environment} (query : string) (w : world) :
  catalog_ok w ->
  let w' := fst (FoodSearchView.get_queryset query w) in
  catalog_ok w'
  /\ (forall x, In x (food_items w) ->
        exists x', In x' (food_items w')
                   /\ FoodItem.pk x' = FoodItem.pk x
                   /\ FoodItem.fdc_id x' = FoodItem.fdc_id x)
  /\ daily_intakes w' = daily_intakes w
  /\ food_entries w' = food_entries w
  /\ user_profiles w' = user_profiles w
  /\ (http_log w' = http_log w
      \/ http_log w' = FoodAPIService.search_request query 10 :: http_log w)
  /\ ((5 <= List.length (FoodSearchView.filter_name_icontains query w))%nat -> w' = w).
Proof.
  intros Hok. unfold FoodSearchView.get_queryset.
  destruct (Str.len query <? 2)%Z; [cbn; split; [exact Hok|]; eauto 10|].
  cbv zeta. rewrite length_firstn.
  destruct (Z.ltb_spec
              (Z.of_nat (Nat.min 10 (List.length
                                       (FoodSearchView.filter_name_icontains query w)))) 5)
    as [Hfew|Hmany]; cbn [fst].
  - unfold FoodAPIService.search_foods.
    destruct (Str.len (Str.strip query) <? 2)%Z.
    + cbn. split; [exact Hok|]. split; [eauto|]. repeat (split; [auto|]). auto.
    + set (w1 := with_http_log _ w).
      set (results := FoodAPIService.search_reply _).
      assert (Hok1 : catalog_ok w1) by exact Hok.
      destruct (cache_foods_keeps results Hok1)
        as (Hok' & _ & Hpersist & _ & _ & Hd & He & Hu & Hl).
      split; [exact Hok'|]. split; [exact Hpersist|].
      repeat (split; [assumption|]). split; [right; exact Hl|].
      intros Hlocal. lia.
  - split; [exact Hok|]. split; [eauto|]. repeat (split; [auto|]). auto.
Qed.

(** The morning's catalogue searched for chicken. *)
Lemma get_queryset_effects_witness :
  catalog_ok (fst (FoodSearchView.get_queryset (env := offline) "chicken" morning)).
Proof.
  exact (proj1 (@get_queryset_effects offline "chicken" morning morning_catalog_ok)).
Defined.

Section StripFacts.

Lemma lstrip_length (s : string) :
  (String.length (Str.lstrip s) <= String.length s)%nat.
Proof.
  induction s as [|c s IH]; simpl; [lia|].
  destruct (Str.is_space c); simpl; lia.
Qed.

Lemma rstrip_length (s : string) :
  (String.length (Str.rstrip s) <= String.length s)%nat.
Proof.
  induction s as [|c s IH]; simpl; [lia|].
  destruct (Str.rstrip s); [destruct (Str.is_space c)|]; simpl in *; lia.
Qed.

(** Stripping does not lengthen a string. *)
Lemma strip_len (s : string) : (Str.len (Str.strip s) <= Str.len s)%Z.
Proof.
  unfold Str.len, Str.strip.
  pose proof (rstrip_length (Str.lstrip s)). pose proof (lstrip_length s). lia.
Qed.

End StripFacts.

(** X19. A search that reaches the provider merges what it returns:
    for a query of two characters or more once stripped, with fewer
    than five local matches, a catalogue under its constraints and a
    storage layer that works, one request is sent, and the identifier of
    every dictionary made from the reply has exactly one row in the
    catalogue the view leaves. *)
Theorem search_results_are_cached {env : Environment} (query : string) (w : world) :
  storage_sound ->
  catalog_ok w ->
  (2 <= Str.len (Str.strip query))%Z ->
  (List.length (FoodSearchView.filter_name_icontains query w) < 5)%nat ->
  let w' := fst (FoodSearchView.get_queryset query w) in
  http_log w' = FoodAPIService.search_request query 10 :: http_log w
  /\ forall food_data,
       In food_data
         (FoodAPIService.search_reply
            (session_get (FoodAPIService.search_request query 10))) ->
       exists food_item,
         FoodCacheService.with_fdc_id (FoodData.fdc_id food_data) w' = [food_item].
Proof.
  intros Hsound Hok Hlen Hfew. unfold FoodSearchView.get_queryset.
  pose proof (strip_len query) as Hstrip.
  destruct (Z.ltb_spec (Str.len query) 2) as [Hshort|_]; [lia|].
  cbv zeta. rewrite length_firstn.
  destruct (Z.ltb_spec
              (Z.of_nat (Nat.min 10 (List.length
                                       (FoodSearchView.filter_name_icontains query w)))) 5)
    as [_|Hmany]; [|lia].
  unfold FoodAPIService.search_foods.
  destruct (Z.ltb_spec (Str.len (Str.strip query)) 2) as [Hshort|_]; [lia|].
  cbn [fst].
  set (w1 := with_http_log _ w).
  set (results := FoodAPIService.search_reply _).
  assert (Hok1 : catalog_ok w1) by exact Hok.
  destruct (cache_foods_keeps results Hok1) as (Hok' & _ & _ & _ & _ & _ & _ & _ & Hlog).
  split; [exact Hlog|].
  intros food_data Hin.
  destruct (cache_foods_catalogues results food_data Hsound Hok1 Hin)
    as (item & Hitem & Hid).
  exists item. now apply with_fdc_id_single.
Qed.

(** ** More on the normalization *)

Section NormalizeFacts.
Context {env : Environment}.

Lemma slice_to_nonempty (n : nat) (s : string) :
  s <> ""%string -> Str.slice_to (S n) s <> ""%string.
Proof. destruct s; [congruence|]. discriminate. Qed.

Lemma format_food_data_identified raw detailed formatted :
  FoodAPIService._format_food_data raw detailed = Some formatted ->
  identified formatted.
Proof.
  intros Hsome.
  destruct (format_food_data_inv _ _ Hsome)
    as (id & description & _ & _ & _ & _ & _ & _ & _ & _ & _ & _ & _ & Hid & Hname & Htitle
        & _).
  unfold identified. split; [exact Hid|]. rewrite Hname. split.
  - now apply slice_to_nonempty.
  - apply slice_to_length.
Qed.

Lemma format_foods_identified foods :
  Forall identified (FoodAPIService.format_foods foods).
Proof.
  induction foods as [|food foods IH]; simpl; [constructor|].
  destruct (FoodAPIService._format_food_data food false) eqn:Hfood; [|exact IH].
  constructor; [|exact IH]. exact (format_food_data_identified _ _ Hfood).
Qed.

Lemma format_foods_length foods :
  (List.length (FoodAPIService.format_foods foods) <= List.length foods)%nat.
Proof.
  induction foods as [|food foods IH]; simpl; [lia|].
  destruct (FoodAPIService._format_food_data food false); simpl; lia.
Qed.

(** Whether an entry can be read does not depend on what was read
    before it. *)
Lemma read_nutrient_raises nutrients nutrients' nutrient e :
  FoodAPIService.read_nutrient nutrients nutrient = Raise e ->
  FoodAPIService.read_nutrient nutrients' nutrient = Raise e.
Proof.
  unfold FoodAPIService.read_nutrient, bind.
  destruct (Json.get nutrient "nutrient" (JDict [])) as [inner|]; [|auto].
  destruct (Json.get inner "id" (JStr "")) as [id|]; [|auto].
  destruct (FoodAPIService.nutrient_mapping (FoodAPIService.py_str id)) as [n|];
    [|discriminate].
  destruct (Json.get nutrient "amount" (JInt 0)) as [amount|]; [|auto].
  destruct (Json.get inner "unitName" (JStr "")) as [unit_name|]; [|auto].
  destruct (FoodAPIService.py_upper unit_name) as [unit|]; [|auto].
  destruct ((unit =? "KCAL")%string && nutrient_name_eqb n calories);
    [|destruct (unit =? "G")%string];
    try (destruct (FoodAPIService.float_amount_or_0 amount); [discriminate|auto]);
    discriminate.
Qed.

Lemma read_nutrients_raises entries nutrient :
  In nutrient entries ->
  unreadable nutrient ->
  forall nutrients, exists e,
    FoodAPIService.read_nutrients nutrients entries = Raise e.
Proof.
  intros Hin (e & Hraise).
  induction entries as [|first rest IH]; [destruct Hin|]. intros nutrients. simpl.
  unfold bind.
  destruct (FoodAPIService.read_nutrient nutrients first) as [d|e'] eqn:Hfirst;
    [|eauto].
  destruct Hin as [->|Hin]; [|now apply IH].
  rewrite (@read_nutrient_raises nutrients_empty nutrients nutrient e Hraise) in Hfirst.
  discriminate.
Qed.

End NormalizeFacts.

(** X14. Every dictionary the provider's data is turned into has an
    identifier and a name that are not empty, and a name of at most 200
    characters: those [_format_food_data] returns, all of those
    [search_foods] returns and the one [get_food_details] returns.
    [search_foods] returns no more dictionaries than the payload has
    records. *)
Theorem formatted_records_identified {env : Environment} :
  (forall raw detailed formatted,
     FoodAPIService._format_food_data raw detailed = Some formatted ->
     identified formatted)
  /\ (forall query limit w,
        Forall identified (snd (FoodAPIService.search_foods query limit w)))
  /\ (forall fdc_id w formatted,
        snd (FoodAPIService.get_food_details fdc_id w) = Some formatted ->
        identified formatted)
  /\ (forall items foods,
        Json.lookup "foods" items = Some (JList foods) ->
        (List.length (FoodAPIService.search_reply (Body (JDict items)))
         <= List.length foods)%nat).
Proof.
  split; [exact format_food_data_identified|]. split; [|split].
  - intros query limit w. unfold FoodAPIService.search_foods.
    destruct (Str.len (Str.strip query) <? 2)%Z; cbn; [constructor|].
    unfold FoodAPIService.search_reply.
    destruct (session_get _) as [ | | |data]; try constructor.
    destruct (bind _ _) as [foods|e]; [apply format_foods_identified|constructor].
  - intros fdc_id w formatted. unfold FoodAPIService.get_food_details. cbn.
    destruct (session_get _) as [ | | |data]; try discriminate.
    apply format_food_data_identified.
  - intros items foods Hfoods. simpl. rewrite Hfoods. simpl.
    apply format_foods_length.
Qed.

(** The raw chicken and what it is formatted as. *)
Lemma formatted_records_identified_witness :
  exists formatted,
    FoodAPIService._format_food_data (env := offline) raw_chicken false = Some formatted
    /\ identified formatted.
Proof.
  destruct (FoodAPIService._format_food_data (env := offline) raw_chicken false)
    as [formatted|] eqn:Hformat; [|discriminate Hformat].
  exists formatted. split; [reflexivity|].
  exact (proj1 (@formatted_records_identified offline) raw_chicken false formatted Hformat).
Defined.

(** X15. What makes [_format_food_data] drop a whole record besides a
    missing identifier or name: a raw record that is not an object, a
    description that is not a string, a [foodNutrients] that cannot be
    iterated, and a single entry of [foodNutrients] that cannot be read
    (one that is not an object, or whose accepted amount is not a
    number). The exception is caught and [None] is returned. *)
Theorem malformed_part_drops_record {env : Environment} (raw : json) (detailed : bool) :
  ((forall items, raw <> JDict items) ->
   FoodAPIService._format_food_data raw detailed = None)
  /\ (forall description,
        Json.get raw "description" (JStr "") = Ok description ->
        (forall s, description <> JStr s) ->
        FoodAPIService._format_food_data raw detailed = None)
  /\ (forall food_nutrients e,
        Json.get raw "foodNutrients" (JList []) = Ok food_nutrients ->
        Json.iter food_nutrients = Raise e ->
        FoodAPIService._format_food_data raw detailed = None)
  /\ (forall food_nutrients entries nutrient,
        Json.get raw "foodNutrients" (JList []) = Ok food_nutrients ->
        Json.iter food_nutrients = Ok entries ->
        In nutrient entries ->
        unreadable nutrient ->
        FoodAPIService._format_food_data raw detailed = None).
Proof.
  split; [|split; [|split]].
  - intros Hnot. destruct raw; try reflexivity. now destruct (Hnot items).
  - intros description Hdesc Hnot.
    unfold FoodAPIService._format_food_data, except_None, bind.
    destruct (Json.get raw "fdcId" (JStr "")); [|reflexivity].
    rewrite Hdesc. destruct description; try reflexivity. now destruct (Hnot s).
  - intros food_nutrients e Hfn Hiter.
    unfold FoodAPIService._format_food_data, except_None, bind.
    destruct (Json.get raw "fdcId" (JStr "")); [|reflexivity].
    destruct (Json.get raw "description" (JStr "")) as [description|]; [|reflexivity].
    destruct (FoodAPIService.py_title description); [|reflexivity].
    destruct (Json.get raw "brandOwner" (JStr "")); [|reflexivity].
    destruct (_ || _); [reflexivity|].
    rewrite Hfn, Hiter. reflexivity.
  - intros food_nutrients entries nutrient Hfn Hiter Hin Hbad.
    destruct (@read_nutrients_raises env entries nutrient Hin Hbad nutrients_empty)
      as (e & Hraise).
    unfold FoodAPIService._format_food_data, except_None, bind.
    destruct (Json.get raw "fdcId" (JStr "")); [|reflexivity].
    destruct (Json.get raw "description" (JStr "")) as [description|]; [|reflexivity].
    destruct (FoodAPIService.py_title description); [|reflexivity].
    destruct (Json.get raw "brandOwner" (JStr "")); [|reflexivity].
    destruct (_ || _); [reflexivity|].
    rewrite Hfn, Hiter, Hraise. reflexivity.
Qed.

(** A chicken whose energy comes with a list as amount. *)
Lemma malformed_part_drops_record_witness :
  FoodAPIService._format_food_data (env := offline)
    (JDict [("fdcId", JInt 171077); ("description", JStr "chicken");
            ("foodNutrients", JList [protein_37; energy_with_list_amount])]%string)
    false
  = None.
Proof.
  apply (proj2 (proj2 (proj2
           (@malformed_part_drops_record offline
              (JDict [("fdcId", JInt 171077); ("description", JStr "chicken");
                      ("foodNutrients",
                       JList [protein_37; energy_with_list_amount])]%string)
              false)))
           (JList [protein_37; energy_with_list_amount])
           [protein_37; energy_with_list_amount] energy_with_list_amount).
  - reflexivity.
  - reflexivity.
  - simpl. auto.
  - exists TypeError. reflexivity.
Defined.

(** X16. An entry about a known nutrient with an accepted unit whose
    amount is missing or falsy (null, 0, 0.0, false, an empty string,
    list or object) is read as 0.0: it raises nothing, and it replaces
    what an earlier entry gave for the nutrient. *)
Theorem missing_amount_reads_as_zero {env : Environment}
  (nutrients : nutrients_dict) (nutrient inner id amount : json)
  (unit_name : string) (n : nutrient_name) :
  Json.get nutrient "nutrient" (JDict []) = Ok inner ->
  Json.get inner "id" (JStr "") = Ok id ->
  FoodAPIService.nutrient_mapping (FoodAPIService.py_str id) = Some n ->
  Json.get inner "unitName" (JStr "") = Ok (JStr unit_name) ->
  (Str.upper unit_name = "G"%string
   \/ (Str.upper unit_name = "KCAL"%string /\ n = calories)) ->
  Json.get nutrient "amount" (JInt 0) = Ok amount ->
  Json.truthy amount = false ->
  FoodAPIService.read_nutrient nutrients nutrient = Ok (nutrients_set n 0 nutrients)
  /\ nutrients_get (nutrients_set n 0 nutrients) n = 0%float.
Proof.
  intros Hinner Hid Hmap Hunit Haccepted Hamount Hfalsy.
  assert (Hzero : FoodAPIService.float_amount_or_0 amount = Ok 0%float).
  { unfold FoodAPIService.float_amount_or_0. rewrite Hfalsy. reflexivity. }
  split.
  - unfold FoodAPIService.read_nutrient, bind.
    rewrite Hinner, Hid, Hmap, Hamount, Hunit. simpl.
    destruct Haccepted as [->|[-> ->]]; simpl; rewrite Hzero; reflexivity.
  - unfold nutrients_get, nutrients_set. now destruct n.
Qed.

(** Protein read as 37 g and then again with a null amount. *)
Lemma missing_amount_reads_as_zero_witness :
  FoodAPIService.read_nutrient (env := offline)
    (nutrients_set protein 37 nutrients_empty) protein_null
  = Ok (nutrients_set protein 0 (nutrients_set protein 37 nutrients_empty)).
Proof.
  exact (proj1 (@missing_amount_reads_as_zero offline
                  (nutrients_set protein 37 nutrients_empty) protein_null
                  (JDict [("id", JInt 1003); ("unitName", JStr "g")]%string)
                  (JInt 1003) JNull "g" protein
                  eq_refl eq_refl eq_refl eq_refl (or_introl eq_refl) eq_refl eq_refl)).
Defined.

(** ** The goal the serializer reports *)

(** X17. [get_protein_goal] reports the goal of the user's profile, and
    50.0 for a user without one. The percentage is
    [total_protein / get_protein_goal * 100] for every user whose profile
    has a goal above 0, so for every goal the validators let through;
    for a user without a profile it is 0 and not
    [total_protein / 50.0 * 100]: the default goal is reported and not
    used. *)
Theorem protein_goal_and_percentage (obj : DailyIntake.t) (w : world) :
  (Orm.userprofile (DailyIntake.user_id obj) w = None ->
   DailyIntakeSerializer.get_protein_goal obj w = 50%float
   /\ Models.protein_percentage obj w = 0%float)
  /\ (forall profile,
        Orm.userprofile (DailyIntake.user_id obj) w = Some profile ->
        DailyIntakeSerializer.get_protein_goal obj w
        = UserProfile.daily_protein_goal profile
        /\ ((0 <? UserProfile.daily_protein_goal profile)%float = true ->
            Models.protein_percentage obj w
            = (DailyIntake.total_protein obj
               / DailyIntakeSerializer.get_protein_goal obj w * 100)%float)
        /\ (Models.daily_protein_goal_validators (UserProfile.daily_protein_goal profile)
            = Ok tt ->
            is_nan (UserProfile.daily_protein_goal profile) = false ->
            Models.protein_percentage obj w
            = (DailyIntake.total_protein obj
               / DailyIntakeSerializer.get_protein_goal obj w * 100)%float)).
Proof.
  unfold DailyIntakeSerializer.get_protein_goal, Models.protein_percentage.
  split.
  - intros ->. split; reflexivity.
  - intros profile ->. split; [reflexivity|]. split.
    + intros ->. reflexivity.
    + unfold Models.daily_protein_goal_validators, Models.MinValueValidator, bind.
      destruct (UserProfile.daily_protein_goal profile <? 10)%float eqn:Hlow;
        [discriminate|].
      intros _ Hnum.
      rewrite (@not_below_positive (UserProfile.daily_protein_goal profile) 10); auto.
Qed.

(** The day of the scenario for the user with a goal of 50 g, and a day
    of a user without a profile. *)
Lemma protein_goal_and_percentage_witness :
  DailyIntakeSerializer.get_protein_goal (Models.with_totals 35 245 today) morning
  = 50%float
  /\ DailyIntakeSerializer.get_protein_goal
       {| DailyIntake.pk := 9; DailyIntake.user_id := 8; DailyIntake.date := 20240501;
          DailyIntake.total_protein := 35; DailyIntake.total_calories := 245 |} morning
     = 50%float.
Proof.
  split.
  - exact (proj1 (proj2 (protein_goal_and_percentage
                           (Models.with_totals 35 245 today) morning) _ eq_refl)).
  - exact (proj1 (proj1 (protein_goal_and_percentage
                           {| DailyIntake.pk := 9; DailyIntake.user_id := 8;
                              DailyIntake.date := 20240501;
                              DailyIntake.total_protein := 35;
                              DailyIntake.total_calories := 245 |} morning) eq_refl)).
Defined.

(** ** The later theorems at the scenarios *)



Lemma online_storage_sound : storage_sound (env := online).
Proof. intros w stmt. reflexivity. Qed.

(** The morning's catalogue searched for tofu, the provider answering. *)
Lemma search_results_are_cached_witness :
  exists food_item,
    FoodCacheService.with_fdc_id "172475"
      (fst (FoodSearchView.get_queryset (env := online) "tofu" morning))
    = [food_item].
Proof.
  destruct (@search_results_are_cached online "tofu" morning
              online_storage_sound morning_catalog_ok) as [_ Hcached].
  - vm_compute. discriminate.
  - vm_compute. lia.
  - apply (Hcached tofu). vm_compute. left. reflexivity.
Defined.

(** ** Adding an entry and removing it again *)

Section RoundTrip.
Context {env : Environment}.
Hypothesis sound : storage_sound.

Lemma filter_everything {A : Type} (f : A -> bool) (l : list A) :
  (forall x, In x l -> f x = true) -> List.filter f l = l.
Proof.
  induction l as [|x l IH]; simpl; intros Hall; [reflexivity|].
  rewrite (Hall x) by auto. f_equal. apply IH. auto.
Qed.

(** A new entry saved with a storage layer that works: where it is
    stored and what is returned. *)
Lemma save_new_sound self w :
  FoodEntry.pk self = None ->
  exists saved w1,
    Models.save self w = (w1, Ok saved)
    /\ FoodEntry.pk saved = Some (next_pk w)
    /\ food_entries w1 = Orm.entry_row (next_pk w) (computed self) :: food_entries w.
Proof.
  intros Hnew. rewrite save_unfold. cbv zeta. fold (computed self).
  rewrite (save_entry_sound sound).
  change (FoodEntry.pk (computed self)) with (FoodEntry.pk self). rewrite Hnew.
  rewrite (save_intake_sound sound).
  match goal with
  | |- context [existsb ?f ?l] => destruct (existsb f l)
  end; eexists; eexists; (split; [reflexivity|]); cbn; auto.
Qed.

(** X18. A new entry saved and then deleted, with a storage layer that
    works and entry keys handed out by the sequence: the stored entries
    are the ones from before the two calls, and the [DailyIntake] rows
    are the ones [save] left, with the totals that count the deleted
    entry. *)
Theorem save_then_delete (self : FoodEntry.t) (w w1 : world) (saved : FoodEntry.t) :
  entry_keys_fresh w ->
  FoodEntry.pk self = None ->
  Models.save self w = (w1, Ok saved) ->
  exists w2,
    Models.delete saved w1 = (w2, Ok tt)
    /\ food_entries w2 = food_entries w
    /\ daily_intakes w2 = daily_intakes w1
    /\ (forall day,
          In day (daily_intakes w2) ->
          DailyIntake.pk day = DailyIntake.pk (FoodEntry.daily_intake self) ->
          DailyIntake.total_protein day
          = sum (List.map FoodEntryRow.protein_consumed
                   (Orm.entries_all day w1))
          /\ Orm.entries_all day w1
             = Orm.entry_row (next_pk w) (computed self) :: Orm.entries_all day w2).
Proof.
  intros Hfresh Hnew Hsave.
  destruct (save_new_sound self w Hnew) as (saved' & w1' & Hsave' & Hpk & Hrows).
  rewrite Hsave in Hsave'. inversion Hsave'; subst saved' w1'; clear Hsave'.
  assert (Hback : List.filter (fun r => negb (FoodEntryRow.id r =? next_pk w)%Z)
                    (food_entries w1) = food_entries w).
  { rewrite Hrows. simpl. rewrite Z.eqb_refl. simpl.
    apply filter_everything. intros r Hr. specialize (Hfresh r Hr).
    destruct (Z.eqb_spec (FoodEntryRow.id r) (next_pk w)); [lia|reflexivity]. }
  unfold Models.delete, Orm.delete_entry. rewrite Hpk.
  rewrite execute_accepted by apply sound.
  eexists. split; [reflexivity|]. cbn. rewrite Hback.
  split; [reflexivity|]. split; [reflexivity|].
  intros day Hday Hpkday. split.
  - exact (proj1 (save_sets_day_totals _ _ Hsave day Hday Hpkday)).
  - unfold Orm.entries_all. cbn. rewrite Hrows. simpl.
    now rewrite Hpkday, Z.eqb_refl.
Qed.

End RoundTrip.

(** The first entry of the scenario added to the morning and deleted. *)
Lemma save_then_delete_witness :
  exists w2,
    Models.delete (env := offline) first_saved after_first = (w2, Ok tt)
    /\ food_entries w2 = food_entries morning
    /\ daily_intakes w2 = daily_intakes after_first.
Proof.
  destruct (@save_then_delete offline offline_storage_sound
              first_entry morning after_first first_saved)
    as (w2 & Hdelete & Hrows & Hdays & _).
  - intros row [].
  - reflexivity.
  - vm_compute. reflexivity.
  - exists w2. auto.
Defined.
